(** * nu-history-tool: boundary parsing and range filtering

    A shallow embedding of [src/nu_history_tool/cli.py].  The Python
    functions [parse_date_or_datetime] and [main] are transcribed as Rocq
    functions; exceptions are carried by a small result monad, the pieces of
    the Python standard library they call ([re.fullmatch], [int],
    [datetime.strptime], [datetime] arithmetic) are written out after the
    CPython sources, and what belongs to the running machine (the clock, the
    local time zone) or to a library whose grammar depends on its version
    ([datetime.fromisoformat]) is a field of the [platform] that the
    functions take. *)

From Stdlib Require Import ZArith List String Ascii Bool Lia.
Import ListNotations.
Open Scope string_scope.
Open Scope list_scope.
Open Scope Z_scope.

(** ** Exceptions *)

Inductive exn : Type :=
| ValueError
| OverflowError
| BadParameter (message : string)     (* typer.BadParameter(message) *)
| Exit (code : Z)                     (* typer.Exit(code=n) *)
| ExitWith (message : string).        (* typer.Exit("...") of the acquisition *)

Inductive result (A : Type) : Type :=
| Ok (a : A)
| Raise (e : exn).
Arguments Ok {A} a.
Arguments Raise {A} e.

Definition bind {A B : Type} (m : result A) (k : A -> result B) : result B :=
  match m with
  | Ok a => k a
  | Raise e => Raise e
  end.

Notation "x <- m ;; k" := (bind m (fun x => k))
  (at level 61, m at next level, right associativity).

(** [try: body  except ValueError: raise handler]. *)
Definition except_ValueError {A : Type} (body : result A) (handler : exn) : result A :=
  match body with
  | Raise ValueError => Raise handler
  | r => r
  end.

(** ** Text

    A Python [str] is modelled by [string]; the functions below work on its
    list of characters.  Only ASCII text is covered: [\d] and [int] also
    accept the other Unicode decimal digits. *)

Definition chars (s : string) : list ascii := list_ascii_of_string s.

Definition code (c : ascii) : Z := Z.of_nat (nat_of_ascii c).   (* ord(c) *)

Definition between (lo hi : ascii) (c : ascii) : bool :=
  (code lo <=? code c) && (code c <=? code hi).

(** [\d] of [re] and the digits of [int], on text in ASCII. *)
Definition is_digit (c : ascii) : bool := between "0" "9" c.

Definition is_char (a : ascii) (c : ascii) : bool := code a =? code c.

Definition digit_value (c : ascii) : Z := code c - code "0".

(** [int(s)] for a run of ASCII digits, most significant first. *)
Definition int_of_digits (s : list ascii) : Z :=
  fold_left (fun acc c => 10 * acc + digit_value c) s 0.

(** [int(s)] where [s] may start with blanks, as in the [%d] field [" 5"]. *)
Fixpoint int_of_field (s : list ascii) : Z :=
  match s with
  | c :: rest => if is_char " " c then int_of_field rest else int_of_digits s
  | [] => 0
  end.

(** ['T' in value] *)
Definition contains (a : ascii) (s : string) : bool :=
  existsb (is_char a) (chars s).

(** ** A backtracking matcher for star-free patterns

    Python's [re] tries the alternatives of [|] from left to right, takes
    an optional part first and gives it up only when the rest fails.  The
    matcher is written in continuation-passing style: the continuation is
    the rest of the pattern, and a [None] from it makes the matcher fall
    back to the next alternative. *)

Inductive regex : Type :=
| Eps
| Cls (p : ascii -> bool)
| Seq (r1 r2 : regex)
| Alt (r1 r2 : regex)
| Grp (n : nat) (r : regex).

(** Captured groups: number and text, the latest capture first. *)
Definition groups := list (nat * list ascii).

Fixpoint group (n : nat) (g : groups) : option (list ascii) :=
  match g with
  | [] => None
  | (m, s) :: g' => if Nat.eqb n m then Some s else group n g'
  end.

Fixpoint run {A : Type} (r : regex) (s : list ascii) (g : groups)
    (k : list ascii -> groups -> option A) : option A :=
  match r with
  | Eps => k s g
  | Cls p =>
      match s with
      | c :: s' => if p c then k s' g else None
      | [] => None
      end
  | Seq r1 r2 => run r1 s g (fun s' g' => run r2 s' g' k)
  | Alt r1 r2 =>
      match run r1 s g k with
      | Some a => Some a
      | None => run r2 s g k
      end
  | Grp n r1 =>
      run r1 s g
        (fun s' g' => k s' ((n, firstn (List.length s - List.length s')%nat s) :: g'))
  end.

(** [re.fullmatch(r, s)]: the whole of [s] has to be consumed. *)
Definition fullmatch (r : regex) (s : list ascii) : option groups :=
  run r s [] (fun s' g => match s' with [] => Some g | _ => None end).

(** [r.match(s)]: a prefix of [s]; the result carries what is left over. *)
Definition prefix_match (r : regex) (s : list ascii) : option (list ascii * groups) :=
  run r s [] (fun s' g => Some (s', g)).

Definition Opt (r : regex) : regex := Alt r Eps.
Definition Lit (a : ascii) : regex := Cls (is_char a).
Definition digit : regex := Cls is_digit.

(** [(\d{1,2}):(\d{2})(?::(\d{2}))?] *)
Definition time_pattern : regex :=
  Seq (Grp 1 (Seq digit (Opt digit)))
 (Seq (Lit ":")
 (Seq (Grp 2 (Seq digit digit))
      (Opt (Seq (Lit ":") (Grp 3 (Seq digit digit)))))).

(** ** Calendar arithmetic (CPython, [Lib/_pydatetime.py]) *)

Definition MINYEAR : Z := 1.
Definition MAXYEAR : Z := 9999.
Definition MAXORDINAL : Z := 3652059.     (* date.max.toordinal() *)

Definition is_leap (year : Z) : bool :=
  (year mod 4 =? 0) && (negb (year mod 100 =? 0) || (year mod 400 =? 0)).

Definition days_before_year (year : Z) : Z :=
  let y := year - 1 in y * 365 + y / 4 - y / 100 + y / 400.

Definition DAYS_IN_MONTH (month : Z) : Z :=
  match month with
  | 1 => 31 | 2 => 28 | 3 => 31 | 4 => 30 | 5 => 31 | 6 => 30
  | 7 => 31 | 8 => 31 | 9 => 30 | 10 => 31 | 11 => 30 | 12 => 31
  | _ => -1
  end.

Definition DAYS_BEFORE_MONTH (month : Z) : Z :=
  match month with
  | 1 => 0 | 2 => 31 | 3 => 59 | 4 => 90 | 5 => 120 | 6 => 151
  | 7 => 181 | 8 => 212 | 9 => 243 | 10 => 273 | 11 => 304 | 12 => 334
  | _ => -1
  end.

Definition days_in_month (year month : Z) : Z :=
  if (month =? 2) && is_leap year then 29 else DAYS_IN_MONTH month.

Definition days_before_month (year month : Z) : Z :=
  DAYS_BEFORE_MONTH month + (if (2 <? month) && is_leap year then 1 else 0).

Definition ymd2ord (year month day : Z) : Z :=
  days_before_year year + days_before_month year month + day.

Definition DI400Y : Z := 146097.
Definition DI100Y : Z := 36524.
Definition DI4Y : Z := 1461.

Definition ord2ymd (n0 : Z) : Z * Z * Z :=
  let n := n0 - 1 in
  let n400 := n / DI400Y in
  let n := n mod DI400Y in
  let year := n400 * 400 + 1 in
  let n100 := n / DI100Y in
  let n := n mod DI100Y in
  let n4 := n / DI4Y in
  let n := n mod DI4Y in
  let n1 := n / 365 in
  let n := n mod 365 in
  let year := year + n100 * 100 + n4 * 4 + n1 in
  if (n1 =? 4) || (n100 =? 4) then (year - 1, 12, 31)
  else
    let leapyear := (n1 =? 3) && (negb (n4 =? 24) || (n100 =? 3)) in
    let month := Z.shiftr (n + 50) 5 in
    let preceding :=
      DAYS_BEFORE_MONTH month + (if (2 <? month) && leapyear then 1 else 0) in
    if n <? preceding then
      let month := month - 1 in
      let preceding :=
        preceding
        - (DAYS_IN_MONTH month + (if (month =? 2) && leapyear then 1 else 0)) in
      (year, month, n - preceding + 1)
    else (year, month, n - preceding + 1).

(** ** [date], [time], [datetime] *)

Record date : Type := mkdate { year : Z; month : Z; day : Z }.

(** The two [tzinfo] classes the program meets: dateutil's [tz.tzlocal()]
    and the fixed offset ([datetime.timezone]) that an ISO string carries.
    Offsets and durations are counted in microseconds. *)
Inductive tzinfo : Type :=
| tzlocal
| timezone (offset : Z).

Record time : Type := mktime {
  t_hour : Z; t_minute : Z; t_second : Z; t_microsecond : Z;
  t_tzinfo : option tzinfo; t_fold : Z }.

Record datetime : Type := mkdatetime {
  date_of : date;                     (* .date() *)
  hour : Z; minute : Z; second : Z; microsecond : Z;
  tz : option tzinfo;                 (* .tzinfo *)
  fold : Z }.

(** [_check_date_fields] and the constructor [date(year, month, day)]. *)
Definition check_date_fields (y m dd : Z) : bool :=
  (MINYEAR <=? y) && (y <=? MAXYEAR) && (1 <=? m) && (m <=? 12)
  && (1 <=? dd) && (dd <=? days_in_month y m).

Definition date_new (y m dd : Z) : result date :=
  if check_date_fields y m dd then Ok (mkdate y m dd) else Raise ValueError.

(** [_check_time_fields] *)
Definition check_time_fields (h mi s us : Z) : bool :=
  (0 <=? h) && (h <=? 23) && (0 <=? mi) && (mi <=? 59)
  && (0 <=? s) && (s <=? 59) && (0 <=? us) && (us <=? 999999).

(** [datetime.min.time()] *)
Definition time_min : time := mktime 0 0 0 0 None 0.

(** [t.replace(hour=h, minute=mi, second=s)]: builds a new [time], whose
    constructor checks the fields. *)
Definition time_replace (t : time) (h mi s : Z) : result time :=
  if check_time_fields h mi s (t_microsecond t)
  then Ok (mktime h mi s (t_microsecond t) (t_tzinfo t) (t_fold t))
  else Raise ValueError.

(** [datetime.combine(date, time)] *)
Definition combine (dd : date) (t : time) : datetime :=
  mkdatetime dd (t_hour t) (t_minute t) (t_second t) (t_microsecond t)
             (t_tzinfo t) (t_fold t).

(** [dt.replace(tzinfo=z)] *)
Definition replace_tzinfo (dt : datetime) (z : tzinfo) : datetime :=
  mkdatetime (date_of dt) (hour dt) (minute dt) (second dt) (microsecond dt)
             (Some z) (fold dt).

Definition toordinal (dd : date) : Z := ymd2ord (year dd) (month dd) (day dd).

Definition fromordinal (n : Z) : date :=
  let '(y, m, dd) := ord2ymd n in mkdate y m dd.

Definition US_PER_SECOND : Z := 1000000.
Definition US_PER_DAY : Z := 86400 * US_PER_SECOND.

(** The wall clock of [dt] as the duration
    [timedelta(dt.toordinal(), hours=.., minutes=.., seconds=.., microseconds=..)]
    that [datetime.__add__] builds. *)
Definition wall (dt : datetime) : Z :=
  toordinal (date_of dt) * US_PER_DAY
  + (hour dt * 3600 + minute dt * 60 + second dt) * US_PER_SECOND
  + microsecond dt.

(** [dt + timedelta(microseconds=delta)]: [OverflowError] when the day
    leaves [1 .. MAXORDINAL]; the result keeps the [tzinfo], with fold 0. *)
Definition add_timedelta (dt : datetime) (delta : Z) : result datetime :=
  let t := wall dt + delta in
  let days := t / US_PER_DAY in
  let rest := t mod US_PER_DAY in
  let secs := rest / US_PER_SECOND in
  if (0 <? days) && (days <=? MAXORDINAL) then
    Ok (mkdatetime (fromordinal days)
          (secs / 3600) ((secs mod 3600) / 60) ((secs mod 3600) mod 60)
          (rest mod US_PER_SECOND) (tz dt) 0)
  else Raise OverflowError.

(** ** [datetime.strptime(value, "%Y-%m-%d")]

    [_strptime] turns the format into the pattern
    [(?P<Y>\d\d\d\d)-(?P<m>1[0-2]|0[1-9]|[1-9])-(?P<d>3[0-1]|[1-2]\d|0[1-9]|[1-9]| [1-9])],
    matches it at the start of the text, refuses text that is left over
    and hands the three numbers to the [date] constructor. *)

Definition rng (lo hi : ascii) : regex := Cls (between lo hi).

Definition date_pattern : regex :=
  Seq (Grp 1 (Seq digit (Seq digit (Seq digit digit))))
 (Seq (Lit "-")
 (Seq (Grp 2 (Alt (Seq (Lit "1") (rng "0" "2"))
             (Alt (Seq (Lit "0") (rng "1" "9"))
                  (rng "1" "9"))))
 (Seq (Lit "-")
      (Grp 3 (Alt (Seq (Lit "3") (rng "0" "1"))
             (Alt (Seq (rng "1" "2") digit)
             (Alt (Seq (Lit "0") (rng "1" "9"))
             (Alt (rng "1" "9")
                  (Seq (Lit " ") (rng "1" "9")))))))))).

(** [int(m.group(n))] *)
Definition group_int (n : nat) (g : groups) : Z :=
  match group n g with
  | Some s => int_of_field s
  | None => 0
  end.

Definition strptime_Ymd (value : string) : result datetime :=
  match prefix_match date_pattern (chars value) with
  | None => Raise ValueError                 (* does not match format *)
  | Some (_ :: _, _) => Raise ValueError     (* unconverted data remains *)
  | Some ([], found) =>
      dd <- date_new (group_int 1 found) (group_int 2 found) (group_int 3 found) ;;
      Ok (mkdatetime dd 0 0 0 0 None 0)
  end.

(** ** The boundary parser *)

(** What [parse_date_or_datetime] returns besides [None]: a [date] that is
    not a [datetime], or a [datetime]. *)
Inductive boundary : Type :=
| Day (dd : date)
| Instant (dt : datetime).

(** The machine the program runs on, and the library reader of ISO text. *)
Record platform : Type := mkplatform {
  now : datetime;                              (* datetime.now(tz=tz.tzlocal()) *)
  local_utcoffset : datetime -> Z;             (* tz.tzlocal().utcoffset(dt) *)
  local_fromutc : datetime -> result datetime; (* tz.tzlocal().fromutc(dt) *)
  fromisoformat : string -> result datetime    (* datetime.fromisoformat(s) *)
}.

Definition invalid_format (value : string) : exn :=
  BadParameter
    ("Invalid format for '" ++ value ++
     "'. Use 'YYYY-MM-DD', ISO datetime (e.g., 'YYYY-MM-DDTHH:MM:SS'), or 'hh:mm'.").

Section Program.

Variable P : platform.

(** [dt.utcoffset()] of an aware [datetime] whose [tzinfo] is [z]. *)
Definition tz_utcoffset (z : tzinfo) (dt : datetime) : Z :=
  match z with
  | tzlocal => local_utcoffset P dt
  | timezone offset => offset
  end.

(** [dt.astimezone(tz.tzlocal())] for an aware [dt] with [tzinfo] [mytz]:
    [utc = (self - myoffset).replace(tzinfo=tz)], then [tz.fromutc(utc)]. *)
Definition astimezone_local (dt : datetime) (mytz : tzinfo) : result datetime :=
  utc <- add_timedelta dt (- tz_utcoffset mytz dt) ;;
  local_fromutc P (replace_tzinfo utc tzlocal).

Definition parse_date_or_datetime (value : string) : result (option boundary) :=
  if String.eqb value EmptyString then Ok None
  else
    except_ValueError
      (match fullmatch time_pattern (chars value) with
       | Some time_match =>
           let h := group_int 1 time_match in
           let mi := group_int 2 time_match in
           let s := match group 3 time_match with
                    | Some g3 => int_of_field g3
                    | None => 0
                    end in
           let today := date_of (now P) in
           t <- time_replace time_min h mi s ;;
           let dt := combine today t in
           Ok (Some (Instant (replace_tzinfo dt tzlocal)))
       | None =>
           if negb (contains "T" value) then
             dt <- strptime_Ymd value ;;
             Ok (Some (Day (date_of dt)))
           else
             dt <- fromisoformat P value ;;
             match tz dt with
             | None => Ok (Some (Instant (replace_tzinfo dt tzlocal)))
             | Some mytz =>
                 r <- astimezone_local dt mytz ;;
                 Ok (Some (Instant r))
             end
       end)
      (invalid_format value).

(** ** The history frame and its filters

    The frame that [get_nu_history] returns: one record per history row,
    rows without a timestamp already dropped.  [str.strptime] with [%z]
    gives the column the type [Datetime("us", "UTC")], so a timestamp is the
    number of microseconds since 1970-01-01T00:00:00 UTC. *)

Record HistoryRecord : Type := mkrecord {
  command : string;
  cwd : string;
  start_timestamp : Z }.

Definition DataFrame := list HistoryRecord.

Definition EPOCH_ORDINAL : Z := 719163.   (* date(1970, 1, 1).toordinal() *)

(** [pl.col("start_timestamp").dt.date()]: the day of the timestamp in the
    zone of the column, which is UTC; a number of days since 1970-01-01. *)
Definition dt_date (ts : Z) : Z := ts / US_PER_DAY.

(** A Python [date] as a polars [Date] literal. *)
Definition lit_date (dd : date) : Z := toordinal dd - EPOCH_ORDINAL.

(** The instant of an aware Python [datetime] as a polars literal, which
    the column is compared with instant by instant: microseconds since the
    epoch, the wall clock less the UTC offset. *)
Definition lit_datetime (dt : datetime) : Z :=
  wall dt - EPOCH_ORDINAL * US_PER_DAY
  - match tz dt with
    | Some z => tz_utcoffset z dt
    | None => 0
    end.

(** [df.filter(col >= start_val)]; a comparison with [None] is null on
    every row, and [filter] drops the rows whose mask is null.  These are
    the rows kept once polars has made a literal of the bound;
    [filter_start_run] and [filter_end_run] below add that step, which can
    raise. *)
Definition filter_start (start_val : option boundary) (df : DataFrame) : DataFrame :=
  match start_val with
  | Some (Day dd) => filter (fun r => lit_date dd <=? dt_date (start_timestamp r)) df
  | Some (Instant dt) => filter (fun r => lit_datetime dt <=? start_timestamp r) df
  | None => filter (fun _ => false) df
  end.

Definition filter_end (end_val : option boundary) (df : DataFrame) : DataFrame :=
  match end_val with
  | Some (Day dd) => filter (fun r => dt_date (start_timestamp r) <=? lit_date dd) df
  | Some (Instant dt) => filter (fun r => start_timestamp r <=? lit_datetime dt) df
  | None => filter (fun _ => false) df
  end.

(** ** [main] *)

Record OutputRow : Type := mkrow {
  row_command : string;
  row_cwd : string;
  start_time : Z }.

(** What the program writes: a line through [typer.echo], or the selected
    columns handed to one of the three renderers. *)
Inductive output : Type :=
| Echo (text : string)
| Table (rows : list OutputRow)
| Json (rows : list OutputRow)
| Csv (rows : list OutputRow).

Record run_result : Type := mkrun {
  written : list output;
  outcome : result unit }.

(** [if start:] on an [Optional[str]] *)
Definition truthy (o : option string) : option string :=
  match o with
  | Some s => if String.eqb s EmptyString then None else Some s
  | None => None
  end.

(** Lines 92 to 106: the frame after acquisition and both filters. *)
Definition filtered (history : result DataFrame) (start end_ : option string)
    : result DataFrame :=
  df <- history ;;
  df <- match truthy start with
        | Some s =>
            start_val <- parse_date_or_datetime s ;;
            Ok (filter_start start_val df)
        | None => Ok df
        end ;;
  match truthy end_ with
  | Some e =>
      end_val <- parse_date_or_datetime e ;;
      Ok (filter_end end_val df)
  | None => Ok df
  end.

Definition no_history : string := "No history found for the given date range.".

Definition select (df : DataFrame) : list OutputRow :=
  map (fun r => mkrow (command r) (cwd r) (start_timestamp r)) df.

(** [history] is what [get_nu_history()] returned or raised (what the
    acquisition wrote itself is not repeated in [written]).  [output_format]
    is the text of [--format] as typer hands it over: the parameter is a
    [str], and [case_sensitive] only configures the choices of an [Enum]
    parameter, so the text arrives as it was typed.  The renderers receive
    the selected columns; how they lay them out is not modelled.  This is
    the run in which the renderers and the comparisons of lines 99 and 106
    raise nothing; [main_run] below adds their failures. *)
Definition main (history : result DataFrame) (start end_ : option string)
    (output_format : string) : run_result :=
  match filtered history start end_ with
  | Raise e => mkrun [] (Raise e)
  | Ok df =>
      if Nat.eqb (List.length df) 0 then
        mkrun [Echo no_history] (Raise (Exit 0))
      else
        let output_df := select df in
        if String.eqb output_format "table" then mkrun [Table output_df] (Ok tt)
        else if String.eqb output_format "json" then mkrun [Json output_df] (Ok tt)
        else if String.eqb output_format "csv" then mkrun [Csv output_df] (Ok tt)
        else mkrun [Echo ("Unknown output format: " ++ output_format)]
                   (Raise (Exit 1))
  end.

End Program.

(** ** Parsed ranges *)

(** The spec's FilterRange: each bound absent ([None]) or parsed. *)
Record FilterRange : Type := mkrange {
  range_start : option boundary;
  range_end : option boundary }.

(** Lines 94 to 106 of [main] with the two bounds already parsed. *)
Definition range_filter (P : platform) (fr : FilterRange) (df : DataFrame) : DataFrame :=
  let df := match range_start fr with
            | Some v => filter_start P (Some v) df
            | None => df
            end in
  match range_end fr with
  | Some v => filter_end P (Some v) df
  | None => df
  end.

(** A bound of the command line as [main] sees it: absent (no option or
    the empty string) or parsed. *)
Definition bound_of (P : platform) (o : option string) : result (option boundary) :=
  match truthy o with
  | Some s => parse_date_or_datetime P s
  | None => Ok None
  end.

(** [xs] is [ys] with some elements left out, the others in place. *)
Inductive subseq {A : Type} : list A -> list A -> Prop :=
| subseq_nil : subseq [] []
| subseq_skip x xs ys : subseq xs ys -> subseq xs (x :: ys)
| subseq_keep x xs ys : subseq xs ys -> subseq (x :: xs) (x :: ys).

(** ** A concrete platform *)

(** [(\d{4})-(\d{2})-(\d{2})T(\d{2}):(\d{2}):(\d{2})(?:\.(\d{6}))?(?:([+-])(\d{2}):(\d{2}))?] *)
Definition iso_pattern : regex :=
  let dd := Seq digit digit in
  let date_part :=
    Seq (Grp 1 (Seq dd dd)) (Seq (Lit "-") (Seq (Grp 2 dd) (Seq (Lit "-") (Grp 3 dd)))) in
  let time_part :=
    Seq (Grp 4 dd) (Seq (Lit ":") (Seq (Grp 5 dd) (Seq (Lit ":") (Grp 6 dd)))) in
  let fraction := Opt (Seq (Lit ".") (Grp 7 (Seq dd (Seq dd dd)))) in
  let zone :=
    Opt (Seq (Grp 8 (Alt (Lit "+") (Lit "-")))
             (Seq (Grp 9 dd) (Seq (Lit ":") (Grp 10 dd)))) in
  Seq date_part (Seq (Lit "T") (Seq time_part (Seq fraction zone))).

(** A reader for the ISO texts [YYYY-MM-DDTHH:MM:SS[.ffffff][+HH:MM]] with
    an offset of at most 23:59, which every version of
    [datetime.fromisoformat] reads in this way.  It serves to run the parser
    on examples and refuses every other text; the library reads more, and
    how much depends on its version. *)
Definition isoformat_reader (value : string) : result datetime :=
  match fullmatch iso_pattern (chars value) with
  | None => Raise ValueError
  | Some g =>
      let zone :=
        match group 8 g with
        | None => None
        | Some sign =>
            let off := (group_int 9 g * 3600 + group_int 10 g * 60) * US_PER_SECOND in
            Some (timezone (if existsb (is_char "-") sign then - off else off))
        end in
      if check_date_fields (group_int 1 g) (group_int 2 g) (group_int 3 g)
         && check_time_fields (group_int 4 g) (group_int 5 g) (group_int 6 g) (group_int 7 g)
         && (group_int 9 g <=? 23) && (group_int 10 g <=? 59)
      then Ok (mkdatetime (mkdate (group_int 1 g) (group_int 2 g) (group_int 3 g))
                 (group_int 4 g) (group_int 5 g) (group_int 6 g) (group_int 7 g) zone 0)
      else Raise ValueError
  end.

(** A machine whose local zone has no daylight saving and lies [offset]
    microseconds east of UTC: [utcoffset] is constant and [fromutc] adds
    it.  [clock] is what [datetime.now] returns. *)
Definition fixed_zone (offset : Z) (clock : datetime) : platform :=
  mkplatform clock (fun _ => offset) (fun utc => add_timedelta utc offset)
             isoformat_reader.

Definition HOUR : Z := 3600 * US_PER_SECOND.

(** A machine two hours east of UTC, on 2024-06-15 at 12:00 local time. *)
Definition east2 : platform :=
  fixed_zone (2 * HOUR) (mkdatetime (mkdate 2024 6 15) 12 0 0 0 (Some tzlocal) 0).

(** A machine on UTC. *)
Definition on_utc : platform :=
  fixed_zone 0 (mkdatetime (mkdate 2024 6 15) 12 0 0 0 (Some tzlocal) 0).

(** The timestamp of the history row written at the UTC wall clock
    [y-m-dd h:mi:s +00:00]. *)
Definition utc_timestamp (y m dd h mi s : Z) : Z :=
  lit_datetime on_utc (mkdatetime (mkdate y m dd) h mi s 0 (Some (timezone 0)) 0).

(** ** The statements of the specification, in its own words *)

(** [date(local(record.start_timestamp))]: the timestamp converted to the
    local zone, then its calendar day. *)
Definition local_date (P : platform) (ts : Z) : result date :=
  utc <- add_timedelta (mkdatetime (mkdate 1970 1 1) 0 0 0 0 (Some tzlocal) 0) ts ;;
  w <- local_fromutc P utc ;;
  Ok (date_of w).

(** The hour, minute and second that the pattern of line 47 finds. *)
Definition clock_fields (value : string) : option (Z * Z * Z) :=
  match fullmatch time_pattern (chars value) with
  | Some g =>
      Some (group_int 1 g, group_int 2 g,
            match group 3 g with Some g3 => int_of_field g3 | None => 0 end)
  | None => None
  end.

Definition all_digits (s : list ascii) : Prop := forallb is_digit s = true.

(** The shapes [H:MM], [HH:MM], [H:MM:SS], [HH:MM:SS]. *)
Inductive clock_text : list ascii -> Z -> Z -> Z -> Prop :=
| clock_hm (H M : list ascii) :
    (List.length H = 1 \/ List.length H = 2)%nat -> List.length M = 2%nat ->
    all_digits H -> all_digits M ->
    clock_text (H ++ ":"%char :: M) (int_of_digits H) (int_of_digits M) 0
| clock_hms (H M Sec : list ascii) :
    (List.length H = 1 \/ List.length H = 2)%nat -> List.length M = 2%nat ->
    List.length Sec = 2%nat ->
    all_digits H -> all_digits M -> all_digits Sec ->
    clock_text (H ++ ":"%char :: M ++ ":"%char :: Sec)
               (int_of_digits H) (int_of_digits M) (int_of_digits Sec).

(** The form [YYYY-MM-DD] taken exactly: four digits, two digits, two
    digits. *)
Definition exact_Ymd (value : string) : bool :=
  match chars value with
  | [y1; y2; y3; y4; h1; m1; m2; h2; d1; d2] =>
      forallb is_digit [y1; y2; y3; y4; m1; m2; d1; d2]
      && is_char "-" h1 && is_char "-" h2
  | _ => false
  end.

(** A month or day field as [strptime] reads it: two digits, or one digit
    from 1 to 9 without the leading zero; [blank] allows a space in the
    place of the zero, which [%d] accepts. *)
Inductive field_text (blank : bool) : list ascii -> Prop :=
| field_two (a b : ascii) :
    is_digit a = true -> is_digit b = true -> field_text blank [a; b]
| field_one (a : ascii) :
    between "1" "9" a = true -> field_text blank [a]
| field_blank (a : ascii) :
    blank = true -> between "1" "9" a = true -> field_text blank [" "%char; a].

(** A four-digit year, a month and a day, separated by hyphens, that name
    the calendar date [y]-[m]-[dd]. *)
Inductive date_text : list ascii -> Z -> Z -> Z -> Prop :=
| date_text_intro (Y M D : list ascii) :
    List.length Y = 4%nat -> all_digits Y ->
    field_text false M -> field_text true D ->
    check_date_fields (int_of_digits Y) (int_of_field M) (int_of_field D) = true ->
    date_text (Y ++ "-"%char :: M ++ "-"%char :: D)
              (int_of_digits Y) (int_of_field M) (int_of_field D).



(** What the program relies on in the local zone: [fromutc] hands back a
    wall clock in that zone whose own UTC offset leads back to the instant
    it was given. *)
Definition zone_law (P : platform) : Prop :=
  forall utc w : datetime,
    tz utc = Some tzlocal ->
    local_fromutc P utc = Ok w ->
    tz w = Some tzlocal /\ wall w - local_utcoffset P w = wall utc.

(** The wall clocks a [datetime] can hold: 0001-01-01T00:00:00 up to the
    last microsecond of 9999-12-31. *)
Definition in_range (t : Z) : Prop :=
  US_PER_DAY <= t < (MAXORDINAL + 1) * US_PER_DAY.

(** ** Devices for the proofs *)

(** Each bound acts as a mask on the rows. *)
Definition start_mask (P : platform) (v : option boundary) (r : HistoryRecord) : bool :=
  match v with
  | Some (Day dd) => lit_date dd <=? dt_date (start_timestamp r)
  | Some (Instant dt) => lit_datetime P dt <=? start_timestamp r
  | None => false
  end.

Definition end_mask (P : platform) (v : option boundary) (r : HistoryRecord) : bool :=
  match v with
  | Some (Day dd) => dt_date (start_timestamp r) <=? lit_date dd
  | Some (Instant dt) => start_timestamp r <=? lit_datetime P dt
  | None => false
  end.

(** A history row written at 2024-01-01T23:30:00 UTC, which is
    2024-01-02T01:30:00 on a clock two hours east. *)
Definition sample_row : HistoryRecord :=
  mkrecord "ls" "/home" (utc_timestamp 2024 1 1 23 30 0).

(** The month and day that [ord2ymd] finds for the day [n] (from 0) of a
    year. *)
Definition month_day (n : Z) (leapyear : bool) : Z * Z :=
  let month := Z.shiftr (n + 50) 5 in
  let preceding :=
    DAYS_BEFORE_MONTH month + (if (2 <? month) && leapyear then 1 else 0) in
  if n <? preceding then
    let month := month - 1 in
    let preceding :=
      preceding
      - (DAYS_IN_MONTH month + (if (month =? 2) && leapyear then 1 else 0)) in
    (month, n - preceding + 1)
  else (month, n - preceding + 1).

Definition month_day_ok (leapyear : bool) (k : nat) : bool :=
  let n := Z.of_nat k in
  let '(m, dd) := month_day n leapyear in
  (1 <=? m) && (m <=? 12) && (1 <=? dd)
  && (dd <=? DAYS_IN_MONTH m + (if (m =? 2) && leapyear then 1 else 0))
  && (DAYS_BEFORE_MONTH m + (if (2 <? m) && leapyear then 1 else 0) + dd =? n + 1).

(** ** Text of dates and instants

    [str(d)] of a [date] is ["%04d-%02d-%02d"]; [str(dt)] of a [datetime]
    is [dt.isoformat(sep=' ')]: date, blank, time, the microseconds when
    they are not zero, and the UTC offset of an aware value. *)

Definition digit_char (k : Z) : ascii := ascii_of_nat (Z.to_nat (48 + k)).

(** ["%0<width>d" % n] for a field [n] that fits the width, as the fields
    of a [date] and a [datetime] do: the last [width] decimal digits. *)
Fixpoint pad (width : nat) (n : Z) : list ascii :=
  match width with
  | O => []
  | S w => pad w (n / 10) ++ [digit_char (n mod 10)]
  end.

Definition date_chars (dd : date) : list ascii :=
  pad 4 (year dd) ++ "-"%char :: pad 2 (month dd) ++ "-"%char :: pad 2 (day dd).

(** [str(d)] *)
Definition date_isoformat (dd : date) : string :=
  string_of_list_ascii (date_chars dd).

(** [_format_time] with timespec ['auto'] *)
Definition format_time (h mi s us : Z) : list ascii :=
  pad 2 h ++ ":"%char :: pad 2 mi ++ ":"%char :: pad 2 s
  ++ (if us =? 0 then [] else "."%char :: pad 6 us).

(** [_format_offset]: sign, hours and minutes, then the seconds and the
    microseconds when the offset has any. *)
Definition format_offset (off : Z) : list ascii :=
  let sign := if off <? 0 then "-"%char else "+"%char in
  let a := Z.abs off in
  let hh := a / HOUR in
  let rest := a mod HOUR in
  let mm := rest / (60 * US_PER_SECOND) in
  let ss := rest mod (60 * US_PER_SECOND) in
  sign :: pad 2 hh ++ ":"%char :: pad 2 mm
  ++ (if ss =? 0 then []
      else ":"%char :: pad 2 (ss / US_PER_SECOND)
           ++ (if ss mod US_PER_SECOND =? 0 then []
               else "."%char :: pad 6 (ss mod US_PER_SECOND))).

Definition datetime_chars (P : platform) (dt : datetime) : list ascii :=
  date_chars (date_of dt) ++ " "%char
  :: format_time (hour dt) (minute dt) (second dt) (microsecond dt)
  ++ match tz dt with
     | Some z => format_offset (tz_utcoffset P z dt)
     | None => []
     end.

(** [str(dt)] *)
Definition str_datetime (P : platform) (dt : datetime) : string :=
  string_of_list_ascii (datetime_chars P dt).

(** ** The table (lines 120 to 139) *)

(** The value that [iter_rows] hands out for a timestamp of the column: the
    aware [datetime] in UTC, [timedelta(microseconds=ts)] after the epoch. *)
Definition to_py_datetime (ts : Z) : result datetime :=
  add_timedelta (mkdatetime (mkdate 1970 1 1) 0 0 0 0 (Some (timezone 0)) 0) ts.

(** One [table.add_row]: the start time is aware, so line 131 converts it
    to the local zone, and line 134 takes its text. *)
Definition table_row (P : platform) (row : OutputRow) : result (string * string * string) :=
  start <- to_py_datetime (start_time row) ;;
  start_time_local <- astimezone_local P start (timezone 0) ;;
  Ok (row_command row, row_cwd row, str_datetime P start_time_local).

(** The rows added to the table, in the order of the loop of line 126; an
    exception in the loop leaves the table unprinted. *)
Fixpoint table_rows (P : platform) (rows : list OutputRow)
    : result (list (string * string * string)) :=
  match rows with
  | [] => Ok []
  | row :: rest =>
      cells <- table_row P row ;;
      more <- table_rows P rest ;;
      Ok (cells :: more)
  end.

(** ** Bounds as instants *)

(** The first instant that a start bound lets through and the last one
    that an end bound lets through, in microseconds since the epoch. *)
Definition start_floor (P : platform) (v : boundary) : Z :=
  match v with
  | Day dd => lit_date dd * US_PER_DAY
  | Instant dt => lit_datetime P dt
  end.

Definition end_ceiling (P : platform) (v : boundary) : Z :=
  match v with
  | Day dd => (lit_date dd + 1) * US_PER_DAY - 1
  | Instant dt => lit_datetime P dt
  end.

(** Today at [h:mi:s] on the local clock. *)
Definition today_at (P : platform) (h mi s : Z) : datetime :=
  mkdatetime (date_of (now P)) h mi s 0 (Some tzlocal) 0.

(** ** History acquisition (lines 13 to 39) *)

(** What [subprocess.run] returns. *)
Record CompletedProcess : Type := mkcompleted {
  returncode : Z;
  stdout : string;
  stderr : string }.

(** A row of the frame that [pl.read_csv] builds; a missing timestamp is
    null.  The frame is taken to carry the columns [command] and [cwd],
    which line 113 selects. *)
Record RawRow : Type := mkraw {
  raw_command : string;
  raw_cwd : string;
  raw_start_timestamp : option string }.

Record RawFrame : Type := mkframe {
  columns : list string;              (* df.columns *)
  raw_rows : list RawRow }.

(** The shell and the polars calls of the acquisition. *)
Record shell : Type := mkshell {
  nu : CompletedProcess;                      (* nu -l -c 'history | to csv' *)
  read_csv : string -> RawFrame + string;     (* the frame, or str(e) of the error *)
  to_timestamp : string -> option Z;          (* one value against the pattern of line 36 *)
  strptime_error : list string -> string;     (* str(e) when a value does not match *)
  repr_columns : list string -> string        (* f"{df.columns}" *)
}.

(** What the [try] block of line 24 can raise: an exception of the
    program, or an error of polars with its text. *)
Inductive raised : Type :=
| Program (e : exn)
| Library (message : string).

(** [str(e)] in the handler of line 38.  [typer.Exit(code=1)] is built
    from a keyword only and has no text of its own. *)
Definition str_raised (e : raised) : string :=
  match e with
  | Program (Exit _) => EmptyString
  | Program (ExitWith message) => message
  | Program (BadParameter message) => message
  | Program ValueError => EmptyString
  | Program OverflowError => EmptyString
  | Library message => message
  end.

(** [pl.col("start_timestamp").is_not_null()] *)
Definition is_not_null (row : RawRow) : bool :=
  match raw_start_timestamp row with
  | Some _ => true
  | None => false
  end.

(** [str.strptime] in its strict mode: every value has to match. *)
Fixpoint strptime_rows (W : shell) (rows : list RawRow) : option DataFrame :=
  match rows with
  | [] => Some []
  | row :: rest =>
      match raw_start_timestamp row with
      | None => None
      | Some text =>
          match to_timestamp W text, strptime_rows W rest with
          | Some ts, Some df => Some (mkrecord (raw_command row) (raw_cwd row) ts :: df)
          | _, _ => None
          end
      end
  end.

Definition timestamp_texts (rows : list RawRow) : list string :=
  flat_map (fun row => match raw_start_timestamp row with
                       | Some text => [text]
                       | None => []
                       end) rows.

(** The body of the [try] block: what it writes and what it returns or
    raises. *)
Definition read_history (W : shell) (text : string) : list output * (DataFrame + raised) :=
  match read_csv W text with
  | inr message => ([], inr (Library message))
  | inl df =>
      if negb (existsb (String.eqb "start_timestamp") (columns df)) then
        ([Echo "Error: 'start_timestamp' column not found in Nushell history.";
          Echo ("Available columns are: " ++ repr_columns W (columns df));
          Echo "This might happen if the script's environment doesn't load your full Nushell configuration."],
         inr (Program (Exit 1)))
      else
        let rows := filter is_not_null (raw_rows df) in
        match strptime_rows W rows with
        | Some parsed => ([], inl parsed)
        | None => ([], inr (Library (strptime_error W (timestamp_texts rows))))
        end
  end.

(** [get_nu_history] once [subprocess.run] has returned: the handler of
    line 38 catches every [Exception], the [typer.Exit] of line 30
    included, and raises a [typer.Exit] that carries a message. *)
Definition get_nu_history (W : shell) : list output * result DataFrame :=
  let result := nu W in
  if negb (returncode result =? 0) then
    ([], Raise (ExitWith ("Failed to get nushell history: " ++ stderr result)))
  else
    match read_history W (stdout result) with
    | (lines, inl df) => (lines, Ok df)
    | (lines, inr e) =>
        (lines, Raise (ExitWith ("Failed to parse Nushell history CSV: " ++ str_raised e)))
    end.

(** The command: line 92 calls [get_nu_history], the rest of [main]
    follows. *)
Definition cli (P : platform) (W : shell) (start end_ : option string)
    (output_format : string) : run_result :=
  let '(lines, history) := get_nu_history W in
  let r := main P history start end_ output_format in
  mkrun (lines ++ written r) (outcome r).

(** Sample shells: one that cannot start [nu], one whose history has no
    timestamps, one with a dated row and a row without date. *)
Definition no_shell : shell :=
  mkshell (mkcompleted 127 EmptyString "nu: command not found")
          (fun _ => inr "empty CSV") (fun _ => None) (fun _ => "no match")
          (fun _ => "[]").

Definition bare_shell : shell :=
  mkshell (mkcompleted 0 "command,cwd" EmptyString)
          (fun _ => inl (mkframe ["command"; "cwd"] []))
          (fun _ => None) (fun _ => "no match")
          (fun _ => "['command', 'cwd']").

Definition good_shell : shell :=
  mkshell (mkcompleted 0 "command,cwd,start_timestamp" EmptyString)
          (fun _ => inl (mkframe ["command"; "cwd"; "start_timestamp"]
                           [mkraw "ls" "/home" (Some "2024-01-01 23:30:00.000 +00:00");
                            mkraw "cd" "/" None]))
          (fun text => if String.eqb text "2024-01-01 23:30:00.000 +00:00"
                       then Some (utc_timestamp 2024 1 1 23 30 0) else None)
          (fun _ => "no match")
          (fun _ => "['command', 'cwd', 'start_timestamp']").

Definition mixed_shell : shell :=
  mkshell (mkcompleted 0 "command,cwd,start_timestamp" EmptyString)
          (fun _ => inl (mkframe ["command"; "cwd"; "start_timestamp"]
                           [mkraw "ls" "/home" (Some "2024-01-01 23:30:00.000 +00:00");
                            mkraw "cd" "/" (Some "yesterday")]))
          (fun text => if String.eqb text "2024-01-01 23:30:00.000 +00:00"
                       then Some (utc_timestamp 2024 1 1 23 30 0) else None)
          (fun _ => "no match")
          (fun _ => "['command', 'cwd', 'start_timestamp']").

(** A raw row and the record that the acquisition makes of it. *)
Definition acquired_from (W : shell) (row : RawRow) (r : HistoryRecord) : Prop :=
  command r = raw_command row /\ cwd r = raw_cwd row /\
  exists text, raw_start_timestamp row = Some text /\
               to_timestamp W text = Some (start_timestamp r).

(** A timestamp that the table can show on a clock [offset] east of UTC:
    the instant fits a [datetime] on the UTC clock and on the local one. *)
Definition showable (offset ts : Z) : Prop :=
  in_range (EPOCH_ORDINAL * US_PER_DAY + ts) /\
  in_range (EPOCH_ORDINAL * US_PER_DAY + ts + offset).

(** A row of the frame and the cells that the table shows for it. *)
Definition shown_as (P : platform) (row : OutputRow) (cells : string * string * string) : Prop :=
  exists w, cells = (row_command row, row_cwd row, str_datetime P w) /\
            tz w = Some tzlocal /\ lit_datetime P w = start_time row.

(** ** Text in ASCII

    A [string] is a sequence of 8-bit characters, and [is_digit] knows the
    digits [0] to [9].  Python's [\d] and [int] know the decimal digits of
    every script; on text in ASCII the two agree, and the statements that
    say which texts are refused are made for such text. *)
Definition ascii_text (value : string) : Prop :=
  forallb (fun c => code c <? 128) (chars value) = true.

(** ** The run with the calls into polars and rich that can raise

    [filter_start], [filter_end], [main] and [get_nu_history] above follow
    the run in which polars, rich and [subprocess] do what they are asked.
    Four of these calls can raise instead, and the definitions of this part
    follow the same lines of the program with these failures in place. *)

(** Lines 99 and 106 hand the bound to polars, which makes a literal of
    it before a row is looked at: an aware [datetime] is brought to UTC,
    [dt - dt.utcoffset()], and this raises [OverflowError] when the result
    leaves the years 1 to 9999.  A [date] becomes a literal without
    arithmetic. *)
Definition comparison_literal (P : platform) (v : option boundary) : result unit :=
  match v with
  | Some (Instant dt) =>
      match tz dt with
      | Some z => utc <- add_timedelta dt (- tz_utcoffset P z dt) ;; Ok tt
      | None => Ok tt
      end
  | _ => Ok tt
  end.

(** Lines 96 to 99 and 103 to 106: the literal, then the filter. *)
Definition filter_start_run (P : platform) (start_val : option boundary) (df : DataFrame)
    : result DataFrame :=
  lit <- comparison_literal P start_val ;;
  Ok (filter_start P start_val df).

Definition filter_end_run (P : platform) (end_val : option boundary) (df : DataFrame)
    : result DataFrame :=
  lit <- comparison_literal P end_val ;;
  Ok (filter_end P end_val df).

(** Lines 92 to 106. *)
Definition filtered_run (P : platform) (history : result DataFrame)
    (start end_ : option string) : result DataFrame :=
  df <- history ;;
  df <- match truthy start with
        | Some s =>
            start_val <- parse_date_or_datetime P s ;;
            filter_start_run P start_val df
        | None => Ok df
        end ;;
  match truthy end_ with
  | Some e =>
      end_val <- parse_date_or_datetime P e ;;
      filter_end_run P end_val df
  | None => Ok df
  end.

(** Lines 94 to 106 with the two bounds already parsed. *)
Definition range_filter_run (P : platform) (fr : FilterRange) (df : DataFrame)
    : result DataFrame :=
  df <- match range_start fr with
        | Some v => filter_start_run P (Some v) df
        | None => Ok df
        end ;;
  match range_end fr with
  | Some v => filter_end_run P (Some v) df
  | None => Ok df
  end.

(** A bound that polars can make a literal of: its instant on the UTC
    clock lies within the years 1 to 9999. *)
Definition comparable (P : platform) (v : option boundary) : Prop :=
  match v with
  | Some (Instant dt) =>
      match tz dt with
      | Some z => in_range (wall dt - tz_utcoffset P z dt)
      | None => True
      end
  | _ => True
  end.

(** A call into a library that hands back text: it returns, or it raises
    an exception with the given text. *)
Inductive library_call : Type :=
| Returns
| Raises (message : string).

(** The writers of lines 141 and 143.  [write_json(row_oriented=True)]
    is a call that polars before 1.0 answers; later versions have no such
    keyword and raise [TypeError]. *)
Record writers : Type := mkwriters {
  write_json : list OutputRow -> library_call;
  write_csv : list OutputRow -> library_call }.

(** How a run ends: the command returns, or an exception leaves it. *)
Inductive ending : Type :=
| Finished
| Raised (e : raised).

Record run_report : Type := mkreport {
  printed : list output;
  ended : ending }.

(** [main], lines 92 to 146.  The loop of lines 126 to 137 builds every
    row of the table before line 139 prints it, so an exception in the
    loop leaves nothing printed; the text of a writer is printed when the
    writer has returned. *)
Definition main_run (P : platform) (L : writers) (history : result DataFrame)
    (start end_ : option string) (output_format : string) : run_report :=
  match filtered_run P history start end_ with
  | Raise e => mkreport [] (Raised (Program e))
  | Ok df =>
      if Nat.eqb (List.length df) 0 then
        mkreport [Echo no_history] (Raised (Program (Exit 0)))
      else
        let output_df := select df in
        if String.eqb output_format "table" then
          match table_rows P output_df with
          | Ok cells => mkreport [Table output_df] Finished
          | Raise e => mkreport [] (Raised (Program e))
          end
        else if String.eqb output_format "json" then
          match write_json L output_df with
          | Returns => mkreport [Json output_df] Finished
          | Raises message => mkreport [] (Raised (Library message))
          end
        else if String.eqb output_format "csv" then
          match write_csv L output_df with
          | Returns => mkreport [Csv output_df] Finished
          | Raises message => mkreport [] (Raised (Library message))
          end
        else mkreport [Echo ("Unknown output format: " ++ output_format)]
                      (Raised (Program (Exit 1)))
  end.

(** Writers that return, and the writers of a polars without the keyword
    [row_oriented]. *)
Definition writers_returning : writers :=
  mkwriters (fun _ => Returns) (fun _ => Returns).

Definition writers_without_row_oriented : writers :=
  mkwriters
    (fun _ => Raises "DataFrame.write_json() got an unexpected keyword argument 'row_oriented'")
    (fun _ => Returns).

(** [subprocess.run] of line 16 stands before the [try] of line 24: it
    hands back the finished process, or it raises (no [nu] on the path is a
    [FileNotFoundError]) and the exception leaves [get_nu_history] as it
    is. *)
Inductive launch : Type :=
| Completed (W : shell)
| NotStarted (error : string).

Definition get_nu_history_run (l : launch) : list output * (DataFrame + raised) :=
  match l with
  | NotStarted error => ([], inr (Library error))
  | Completed W =>
      match get_nu_history W with
      | (lines, Ok df) => (lines, inl df)
      | (lines, Raise e) => (lines, inr (Program e))
      end
  end.

(** * Properties *)

(** ** Characters and numbers *)

#[local] Arguments is_digit : simpl never.
#[local] Arguments is_char : simpl never.
#[local] Arguments between : simpl never.
#[local] Arguments int_of_digits : simpl never.
#[local] Arguments int_of_field : simpl never.

Lemma code_inj (a b : ascii) : code a = code b -> a = b.
Proof.
  unfold code. intros H. apply Nat2Z.inj in H.
  rewrite <- (ascii_nat_embedding a), <- (ascii_nat_embedding b).
  now rewrite H.
Qed.

Lemma is_char_eq (a c : ascii) : is_char a c = true -> c = a.
Proof. unfold is_char. intros H. apply Z.eqb_eq in H. symmetry. now apply code_inj. Qed.

Lemma is_char_refl (a : ascii) : is_char a a = true.
Proof. apply Z.eqb_refl. Qed.

Lemma between_range (lo hi c : ascii) :
  between lo hi c = true <-> code lo <= code c <= code hi.
Proof. unfold between. rewrite andb_true_iff, !Z.leb_le. tauto. Qed.

Lemma digit_range (c : ascii) : is_digit c = true <-> 48 <= code c <= 57.
Proof. unfold is_digit. rewrite between_range. reflexivity. Qed.

Lemma digit_not_blank (c : ascii) : is_digit c = true -> is_char " " c = false.
Proof.
  rewrite digit_range. intros H. unfold is_char. apply Z.eqb_neq.
  change (code " ") with 32. lia.
Qed.

Lemma int_of_field_digits (c : ascii) (r : list ascii) :
  is_digit c = true -> int_of_field (c :: r) = int_of_digits (c :: r).
Proof. intros H. unfold int_of_field. now rewrite (digit_not_blank c H). Qed.

Lemma digit_value_range (c : ascii) : is_digit c = true -> 0 <= digit_value c <= 9.
Proof. rewrite digit_range. unfold digit_value. change (code "0") with 48. lia. Qed.

Lemma int_of_digits_1 (a : ascii) : int_of_digits [a] = digit_value a.
Proof. unfold int_of_digits. simpl. lia. Qed.

Lemma int_of_digits_2 (a b : ascii) :
  int_of_digits [a; b] = 10 * digit_value a + digit_value b.
Proof. unfold int_of_digits. simpl. lia. Qed.

(** ** Running a pattern on text with unknown characters *)

Lemma between_false (lo hi c : ascii) :
  between lo hi c = false -> code c < code lo \/ code hi < code c.
Proof. unfold between. rewrite andb_false_iff, !Z.leb_gt. tauto. Qed.

Lemma is_char_code (a c : ascii) : is_char a c = true -> code c = code a.
Proof. unfold is_char. rewrite Z.eqb_eq. auto. Qed.

Lemma is_char_false (a c : ascii) : is_char a c = false -> code c <> code a.
Proof. unfold is_char. rewrite Z.eqb_neq. auto. Qed.

(** Turn a test on a character into a fact about its code. *)
Ltac note_test E :=
  let F := fresh "F" in
  lazymatch type of E with
  | is_char ?a ?c = true =>
      let v := eval vm_compute in (code a) in
      pose proof (is_char_code a c E) as F; change (code a) with v in F
  | is_char ?a ?c = false =>
      let v := eval vm_compute in (code a) in
      pose proof (is_char_false a c E) as F; change (code a) with v in F
  | is_digit ?c = true =>
      pose proof (proj1 (digit_range c) E) as F
  | is_digit ?c = false =>
      pose proof (between_false "0" "9" c E) as F;
      change (code "0") with 48 in F; change (code "9") with 57 in F
  | between ?lo ?hi ?c = true =>
      let l := eval vm_compute in (code lo) in
      let h := eval vm_compute in (code hi) in
      pose proof (proj1 (between_range lo hi c) E) as F;
      change (code lo) with l in F; change (code hi) with h in F
  | between ?lo ?hi ?c = false =>
      let l := eval vm_compute in (code lo) in
      let h := eval vm_compute in (code hi) in
      pose proof (between_false lo hi c E) as F;
      change (code lo) with l in F; change (code hi) with h in F
  | _ => idtac
  end.

Ltac head_scrutinee t :=
  lazymatch t with
  | match ?x with _ => _ end => head_scrutinee x
  | _ => t
  end.

Ltac step_in H :=
  cbn in H;
  lazymatch type of H with
  | match ?x with _ => _ end = _ =>
      let s := head_scrutinee x in
      first [ is_var s; destruct s
            | let E := fresh "E" in destruct s eqn:E; note_test E ];
      try discriminate H; try lia
  end.

Ltac step_goal :=
  cbn; rewrite ?is_char_refl; cbn;
  lazymatch goal with
  | |- match ?x with _ => _ end = _ =>
      let s := head_scrutinee x in
      let E := fresh "E" in
      destruct s eqn:E;
      lazymatch type of E with
      | _ (Ascii _ _ _ _ _ _ _ _) = _ => try (vm_compute in E; discriminate E)
      | _ => note_test E; try lia
      end
  end.

(** ** The clock pattern *)

Lemma clock_fields_text (value : string) (h mi s : Z) :
  clock_fields value = Some (h, mi, s) -> clock_text (chars value) h mi s.
Proof.
  unfold clock_fields.
  destruct (fullmatch time_pattern (chars value)) as [g|] eqn:H; [|discriminate].
  intros E. inversion E; subst; clear E.
  revert H. generalize (chars value). intros l H.
  unfold fullmatch, time_pattern, Opt, Lit, digit in H.
  repeat step_in H.
  all: cbn in H; inversion H; subst; clear H; cbn.
  all: repeat match goal with
       | E : is_char _ _ = true |- _ => apply is_char_eq in E; subst
       end.
  all: try match goal with
       | E : is_digit ":" = true |- _ => discriminate E
       end.
  all: rewrite ?int_of_field_digits by assumption.
  all: first
    [ match goal with
      | |- clock_text [?a; _; ?b; ?c] _ _ _ => apply (clock_hm [a] [b; c])
      | |- clock_text [?a; ?a'; _; ?b; ?c] _ _ _ => apply (clock_hm [a; a'] [b; c])
      | |- clock_text [?a; _; ?b; ?c; _; ?e; ?f] _ _ _ =>
          apply (clock_hms [a] [b; c] [e; f])
      | |- clock_text [?a; ?a'; _; ?b; ?c; _; ?e; ?f] _ _ _ =>
          apply (clock_hms [a; a'] [b; c] [e; f])
      end ].
  all: unfold all_digits; cbn; auto.
  all: repeat match goal with
       | E : is_digit ?c = true |- context [is_digit ?c] => rewrite E
       end; reflexivity.
Qed.

Lemma digit_colon : is_digit ":" = false.
Proof. reflexivity. Qed.

Ltac use_digits :=
  repeat match goal with
  | E : is_digit ?c = true |- context [is_digit ?c] => rewrite E
  end.

Lemma clock_text_fields (value : string) (h mi s : Z) :
  clock_text (chars value) h mi s -> clock_fields value = Some (h, mi, s).
Proof.
  unfold clock_fields. generalize (chars value). intros l T.
  destruct T as [H M LH LM DH DM | H M X LH LM LS DH DM DS].
  all: destruct H as [|a [|b [|? ?]]]; simpl in LH; try lia.
  all: destruct M as [|m1 [|m2 [|? ?]]]; try discriminate LM.
  all: try (destruct X as [|s1 [|s2 [|? ?]]]; try discriminate LS).
  all: unfold all_digits in *; cbn in *.
  all: repeat match goal with
       | E : _ && _ = true |- _ => apply andb_true_iff in E; destruct E
       end.
  all: unfold fullmatch, time_pattern, Opt, Lit, digit; cbn.
  all: repeat (use_digits; rewrite ?is_char_refl, ?digit_colon; cbn).
  all: rewrite ?int_of_field_digits by assumption; reflexivity.
Qed.

Lemma clock_fields_iff (value : string) (h mi s : Z) :
  clock_fields value = Some (h, mi, s) <-> clock_text (chars value) h mi s.
Proof. split; [apply clock_fields_text | apply clock_text_fields]. Qed.

Lemma int_of_digits_nonneg (l : list ascii) :
  all_digits l -> 0 <= int_of_digits l.
Proof.
  unfold int_of_digits, all_digits.
  assert (G : forall acc, 0 <= acc -> forallb is_digit l = true ->
              0 <= fold_left (fun a c => 10 * a + digit_value c) l acc).
  { induction l as [|c l IH]; cbn [fold_left forallb]; intros acc Hacc Hd; [assumption|].
    apply andb_true_iff in Hd. destruct Hd as [Hc Hl].
    apply IH; [|assumption]. pose proof (digit_value_range c Hc). lia. }
  apply G. lia.
Qed.

Lemma clock_text_nonneg (l : list ascii) (h mi s : Z) :
  clock_text l h mi s -> 0 <= h /\ 0 <= mi /\ 0 <= s.
Proof.
  intros T. destruct T; repeat split;
    first [lia | apply int_of_digits_nonneg; assumption].
Qed.

(** ** The parser on clock times *)

Lemma clock_not_empty (value : string) (f : Z * Z * Z) :
  clock_fields value = Some f -> String.eqb value EmptyString = false.
Proof. destruct value; [discriminate | reflexivity]. Qed.

Lemma parse_clock (P : platform) (value : string) (h mi s : Z) :
  clock_fields value = Some (h, mi, s) ->
  parse_date_or_datetime P value =
  except_ValueError
    (t <- time_replace time_min h mi s ;;
     Ok (Some (Instant (replace_tzinfo (combine (date_of (now P)) t) tzlocal))))
    (invalid_format value).
Proof.
  intros H. unfold parse_date_or_datetime.
  rewrite (clock_not_empty _ _ H).
  unfold clock_fields in H.
  destruct (fullmatch time_pattern (chars value)) as [g|]; [|discriminate].
  now inversion H.
Qed.

(** C10. A string that matches the clock pattern and carries a component
    out of range (hour above 23, minute or second above 59) makes
    [parse_date_or_datetime] raise the same [BadParameter] as a string that
    matches no shape: the [ValueError] of the [time] constructor is caught
    by the handler of line 67. *)
Theorem clock_out_of_range_rejected (P : platform) (value : string) (h mi s : Z) :
  clock_text (chars value) h mi s ->
  23 < h \/ 59 < mi \/ 59 < s ->
  parse_date_or_datetime P value = Raise (invalid_format value).
Proof.
  intros T R. apply clock_fields_iff in T.
  rewrite (parse_clock P value h mi s T).
  unfold time_replace, check_time_fields, time_min. simpl t_microsecond.
  assert (E : (0 <=? h) && (h <=? 23) && (0 <=? mi) && (mi <=? 59)
              && (0 <=? s) && (s <=? 59) = false).
  { destruct R as [R | [R | R]];
      repeat rewrite andb_false_iff; rewrite ?Z.leb_gt; tauto. }
  rewrite E. reflexivity.
Qed.

Lemma clock_out_of_range_rejected_witness :
  parse_date_or_datetime east2 "99:99" = Raise (invalid_format "99:99").
Proof.
  apply (clock_out_of_range_rejected east2 "99:99" 99 99 0).
  - apply (clock_hm ["9"; "9"] ["9"; "9"])%char; vm_compute; auto.
  - lia.
Defined.

(** C4, as the code has it.  A string of the shape [H:MM] or [H:MM:SS]
    whose hour is at most 23 and whose minute and second are at most 59 is
    parsed to the instant made of today's date on the local clock, the hour,
    minute and second that were read (second 0 when the string has none),
    no microseconds, and the local zone.  No other interpretation is tried. *)
Theorem clock_time_is_today (P : platform) (value : string) (h mi s : Z) :
  clock_text (chars value) h mi s ->
  h <= 23 -> mi <= 59 -> s <= 59 ->
  parse_date_or_datetime P value =
  Ok (Some (Instant (mkdatetime (date_of (now P)) h mi s 0 (Some tzlocal) 0))).
Proof.
  intros T Hh Hm Hs.
  destruct (clock_text_nonneg _ _ _ _ T) as (Ph & Pm & Ps).
  apply clock_fields_iff in T.
  rewrite (parse_clock P value h mi s T).
  unfold time_replace, check_time_fields, time_min. simpl t_microsecond.
  replace ((0 <=? h) && (h <=? 23) && (0 <=? mi) && (mi <=? 59)
           && (0 <=? s) && (s <=? 59) && (0 <=? 0) && (0 <=? 999999)) with true.
  - reflexivity.
  - symmetry. repeat (apply andb_true_iff; split); apply Z.leb_le; lia.
Qed.

Lemma clock_time_is_today_witness :
  parse_date_or_datetime east2 "9:05" =
  Ok (Some (Instant (mkdatetime (mkdate 2024 6 15) 9 5 0 0 (Some tzlocal) 0))).
Proof.
  apply (clock_time_is_today east2 "9:05" 9 5 0).
  - apply (clock_hm ["9"] ["0"; "5"])%char; vm_compute; auto.
  - lia.
  - lia.
  - lia.
Defined.

(** The claim as the specification words it fails on ["99:99"]: the string
    has the shape [HH:MM], and no instant is returned. *)
Lemma clock_shape_without_instant :
  clock_text (chars "99:99") 99 99 0 /\
  parse_date_or_datetime east2 "99:99" = Raise (invalid_format "99:99").
Proof.
  split.
  - apply (clock_hm ["9"; "9"] ["9"; "9"])%char; vm_compute; auto.
  - reflexivity.
Qed.

(** ** Ordinals and calendar dates *)

Lemma month_day_table (leapyear : bool) :
  forallb (month_day_ok leapyear) (seq 0 365) = true.
Proof. destruct leapyear; vm_compute; reflexivity. Qed.

Lemma month_day_spec (n : Z) (leapyear : bool) :
  0 <= n <= 364 ->
  let '(m, dd) := month_day n leapyear in
  1 <= m <= 12 /\
  1 <= dd <= DAYS_IN_MONTH m + (if (m =? 2) && leapyear then 1 else 0) /\
  DAYS_BEFORE_MONTH m + (if (2 <? m) && leapyear then 1 else 0) + dd = n + 1.
Proof.
  intros R.
  pose proof (month_day_table leapyear) as T.
  rewrite forallb_forall in T.
  specialize (T (Z.to_nat n)).
  unfold month_day_ok in T. rewrite Z2Nat.id in T by lia.
  destruct (month_day n leapyear) as [m dd].
  assert (I : In (Z.to_nat n) (seq 0 365)) by (apply in_seq; lia).
  specialize (T I).
  repeat (apply andb_true_iff in T; destruct T as [T ?]).
  rewrite ?Z.leb_le, ?Z.eqb_eq in *. lia.
Qed.

Lemma ord2ymd_month_day (year n : Z) (leapyear : bool) :
  (let month := Z.shiftr (n + 50) 5 in
   let preceding :=
     DAYS_BEFORE_MONTH month + (if (2 <? month) && leapyear then 1 else 0) in
   if n <? preceding then
     let month := month - 1 in
     let preceding :=
       preceding
       - (DAYS_IN_MONTH month + (if (month =? 2) && leapyear then 1 else 0)) in
     (year, month, n - preceding + 1)
   else (year, month, n - preceding + 1))
  = (year, fst (month_day n leapyear), snd (month_day n leapyear)).
Proof.
  unfold month_day. cbv zeta.
  destruct (n <? _); reflexivity.
Qed.

Ltac eqb_cases :=
  repeat match goal with
  | |- context [?a =? ?b] => destruct (Z.eqb_spec a b)
  | |- context [?a <? ?b] => destruct (Z.ltb_spec a b)
  | |- context [?a <=? ?b] => destruct (Z.leb_spec a b)
  end.

Lemma is_leap_parts (q400 q100 q4 q1 : Z) :
  0 <= q100 <= 3 -> 0 <= q4 <= 24 -> 0 <= q1 <= 3 ->
  is_leap (q400 * 400 + 1 + q100 * 100 + q4 * 4 + q1)
  = (q1 =? 3) && (negb (q4 =? 24) || (q100 =? 3)).
Proof.
  intros. unfold is_leap.
  eqb_cases; simpl; try reflexivity; exfalso; Z.div_mod_to_equations; lia.
Qed.

Lemma days_before_year_parts (q400 q100 q4 q1 : Z) :
  0 <= q100 <= 3 -> 0 <= q4 <= 24 -> 0 <= q1 <= 3 ->
  days_before_year (q400 * 400 + 1 + q100 * 100 + q4 * 4 + q1)
  = DI400Y * q400 + DI100Y * q100 + DI4Y * q4 + 365 * q1.
Proof.
  intros. unfold days_before_year, DI400Y, DI100Y, DI4Y. cbv zeta.
  Z.div_mod_to_equations. lia.
Qed.

Lemma ymd2ord_ord2ymd (n : Z) :
  let '(y, m, dd) := ord2ymd n in ymd2ord y m dd = n.
Proof.
  unfold ord2ymd. cbv zeta.
  set (N := n - 1).
  set (q400 := N / DI400Y). set (r400 := N mod DI400Y).
  set (q100 := r400 / DI100Y). set (r100 := r400 mod DI100Y).
  set (q4 := r100 / DI4Y). set (r4 := r100 mod DI4Y).
  set (q1 := r4 / 365). set (r := r4 mod 365).
  assert (E400 : N = DI400Y * q400 + r400 /\ 0 <= r400 < DI400Y).
  { unfold q400, r400, DI400Y. Z.div_mod_to_equations. lia. }
  assert (E100 : r400 = DI100Y * q100 + r100 /\ 0 <= r100 < DI100Y).
  { unfold q100, r100, DI100Y. Z.div_mod_to_equations. lia. }
  assert (E4 : r100 = DI4Y * q4 + r4 /\ 0 <= r4 < DI4Y).
  { unfold q4, r4, DI4Y. Z.div_mod_to_equations. lia. }
  assert (E1 : r4 = 365 * q1 + r /\ 0 <= r < 365).
  { unfold q1, r. Z.div_mod_to_equations. lia. }
  assert (EN : N = n - 1) by reflexivity.
  clearbody q400 r400 q100 r100 q4 r4 q1 r N.
  unfold DI400Y, DI100Y, DI4Y in *.
  destruct ((q1 =? 4) || (q100 =? 4)) eqn:Last.
  - (* the last day of a 4-year or 400-year cycle *)
    apply orb_true_iff in Last. rewrite !Z.eqb_eq in Last.
    unfold ymd2ord, days_before_month. simpl DAYS_BEFORE_MONTH.
    replace (q400 * 400 + 1 + q100 * 100 + q4 * 4 + q1 - 1)
      with (q400 * 400 + 1 + (q100 - (if q100 =? 4 then 1 else 0)) * 100
            + (if q100 =? 4 then 24 else q4) * 4 + 3).
    2:{ eqb_cases; lia. }
    rewrite is_leap_parts, days_before_year_parts by (eqb_cases; lia).
    unfold DI400Y, DI100Y, DI4Y.
    eqb_cases; cbn [andb orb negb]; lia.
  - apply orb_false_iff in Last. rewrite !Z.eqb_neq in Last.
    rewrite ord2ymd_month_day.
    set (leapyear := (q1 =? 3) && (negb (q4 =? 24) || (q100 =? 3))).
    pose proof (month_day_spec r leapyear ltac:(lia)) as MD.
    destruct (month_day r leapyear) as [m dd]. simpl fst. simpl snd.
    unfold ymd2ord, days_before_month.
    rewrite is_leap_parts, days_before_year_parts by lia.
    fold leapyear. unfold DI400Y, DI100Y, DI4Y. lia.
Qed.

Lemma toordinal_fromordinal (n : Z) : toordinal (fromordinal n) = n.
Proof.
  unfold toordinal, fromordinal.
  pose proof (ymd2ord_ord2ymd n) as H.
  destruct (ord2ymd n) as [[y m] dd]. exact H.
Qed.

(** ** [datetime] arithmetic *)

Lemma add_timedelta_ok (dt : datetime) (delta : Z) :
  in_range (wall dt + delta) ->
  exists r, add_timedelta dt delta = Ok r /\ wall r = wall dt + delta /\ tz r = tz dt.
Proof.
  unfold in_range, add_timedelta. cbv zeta.
  set (t := wall dt + delta). clearbody t. intros R.
  assert (D : 0 < t / US_PER_DAY <= MAXORDINAL).
  { unfold US_PER_DAY, US_PER_SECOND, MAXORDINAL in *.
    Z.div_mod_to_equations. lia. }
  replace ((0 <? t / US_PER_DAY) && (t / US_PER_DAY <=? MAXORDINAL)) with true.
  2:{ symmetry. apply andb_true_iff. rewrite Z.ltb_lt, Z.leb_le. lia. }
  eexists. split; [reflexivity|]. split; [|reflexivity].
  unfold wall. cbn [date_of hour minute second microsecond].
  rewrite toordinal_fromordinal.
  unfold US_PER_DAY, US_PER_SECOND in *.
  Z.div_mod_to_equations. lia.
Qed.

Lemma add_timedelta_wall (dt r : datetime) (delta : Z) :
  add_timedelta dt delta = Ok r ->
  in_range (wall dt + delta) /\ wall r = wall dt + delta /\ tz r = tz dt.
Proof.
  intros H.
  assert (R : in_range (wall dt + delta)).
  { unfold add_timedelta in H. cbv zeta in H.
    destruct ((0 <? _) && _) eqn:C in H; [|discriminate].
    apply andb_true_iff in C. rewrite Z.ltb_lt, Z.leb_le in C.
    unfold in_range, US_PER_DAY, US_PER_SECOND, MAXORDINAL in *.
    Z.div_mod_to_equations. lia. }
  split; [exact R|].
  destruct (add_timedelta_ok dt delta R) as (r' & E & W & Z').
  rewrite H in E. inversion E; subst. tauto.
Qed.

Lemma add_timedelta_overflow (dt : datetime) (delta : Z) :
  ~ in_range (wall dt + delta) -> add_timedelta dt delta = Raise OverflowError.
Proof.
  intros N. destruct (add_timedelta dt delta) as [r|e] eqn:H.
  - apply add_timedelta_wall in H. tauto.
  - unfold add_timedelta in H. cbv zeta in H.
    destruct ((0 <? _) && _) in H; [discriminate|]. now inversion H.
Qed.

Lemma add_timedelta_raises (dt : datetime) (delta : Z) (e : exn) :
  add_timedelta dt delta = Raise e -> e = OverflowError.
Proof.
  unfold add_timedelta. cbv zeta.
  destruct (_ && _); intros H; now inversion H.
Qed.

Lemma fixed_zone_law (offset : Z) (clock : datetime) :
  zone_law (fixed_zone offset clock).
Proof.
  intros utc w Z' H. simpl in H. apply add_timedelta_wall in H.
  destruct H as (_ & W & T). simpl. rewrite T, W. split; [assumption | lia].
Qed.

(** On a machine whose zone is a fixed offset, the conversion of an aware
    [datetime] succeeds as soon as the instant can be held on the UTC clock
    and on the local clock. *)
Lemma astimezone_fixed_zone_ok (offset : Z) (clock dt : datetime) (z : tzinfo) :
  let utc := wall dt - tz_utcoffset (fixed_zone offset clock) z dt in
  in_range utc -> in_range (utc + offset) ->
  exists w, astimezone_local (fixed_zone offset clock) dt z = Ok w /\
            wall w = utc + offset.
Proof.
  cbv zeta. intros U L. unfold astimezone_local.
  destruct (add_timedelta_ok dt (- tz_utcoffset (fixed_zone offset clock) z dt))
    as (utc & E & W & _).
  { now replace (wall dt + - tz_utcoffset (fixed_zone offset clock) z dt)
      with (wall dt - tz_utcoffset (fixed_zone offset clock) z dt) by lia. }
  rewrite E. cbn [bind local_fromutc fixed_zone].
  destruct (add_timedelta_ok (replace_tzinfo utc tzlocal) offset) as (w & E' & W' & _).
  { change (wall (replace_tzinfo utc tzlocal)) with (wall utc). rewrite W.
    now replace (wall dt + - tz_utcoffset (fixed_zone offset clock) z dt)
      with (wall dt - tz_utcoffset (fixed_zone offset clock) z dt) by lia. }
  exists w. split; [exact E'|].
  rewrite W'. change (wall (replace_tzinfo utc tzlocal)) with (wall utc). lia.
Qed.

(** ** The parser on ISO date-times *)

Lemma digits_without (a : ascii) (l : list ascii) :
  is_digit a = false -> all_digits l -> existsb (is_char a) l = false.
Proof.
  intros Na. unfold all_digits.
  induction l as [|c l IH]; cbn [forallb existsb]; intros D; [reflexivity|].
  apply andb_true_iff in D. destruct D as [Dc Dl].
  rewrite (IH Dl), orb_false_r.
  destruct (is_char a c) eqn:E; [|reflexivity].
  apply is_char_eq in E. congruence.
Qed.

Lemma clock_text_without_T (l : list ascii) (h mi s : Z) :
  clock_text l h mi s -> existsb (is_char "T") l = false.
Proof.
  assert (NT : is_digit "T" = false) by reflexivity.
  intros T. destruct T; rewrite ?existsb_app; cbn [existsb];
    rewrite ?existsb_app; cbn [existsb];
    rewrite !(digits_without "T") by assumption; reflexivity.
Qed.

Lemma T_excludes_clock (value : string) :
  contains "T" value = true -> fullmatch time_pattern (chars value) = None.
Proof.
  intros C.
  destruct (clock_fields value) as [[[h mi] s]|] eqn:F.
  - apply clock_fields_iff, clock_text_without_T in F.
    unfold contains in C. congruence.
  - unfold clock_fields in F.
    destruct (fullmatch time_pattern (chars value)); [discriminate | reflexivity].
Qed.

Lemma parse_iso (P : platform) (value : string) :
  contains "T" value = true ->
  parse_date_or_datetime P value =
  except_ValueError
    (dt <- fromisoformat P value ;;
     match tz dt with
     | None => Ok (Some (Instant (replace_tzinfo dt tzlocal)))
     | Some mytz => r <- astimezone_local P dt mytz ;; Ok (Some (Instant r))
     end)
    (invalid_format value).
Proof.
  intros C. unfold parse_date_or_datetime.
  rewrite (T_excludes_clock value C), C.
  destruct value; [discriminate C | reflexivity].
Qed.

Lemma astimezone_local_instant (P : platform) (dt w : datetime) (z : tzinfo) :
  zone_law P -> tz dt = Some z ->
  astimezone_local P dt z = Ok w ->
  tz w = Some tzlocal /\ lit_datetime P w = lit_datetime P dt.
Proof.
  intros L Z' H. unfold astimezone_local in H.
  destruct (add_timedelta dt (- tz_utcoffset P z dt)) as [utc|] eqn:A;
    [|discriminate].
  cbn [bind] in H.
  apply add_timedelta_wall in A. destruct A as (_ & W & _).
  apply L in H; [|reflexivity].
  destruct H as [Tw Ww]. split; [assumption|].
  unfold lit_datetime. rewrite Tw, Z'. cbn [tz_utcoffset].
  change (wall (replace_tzinfo utc tzlocal)) with (wall utc) in Ww. lia.
Qed.

(** C6, as the code has it.  In the fallback case (the string holds a [T]
    and [fromisoformat] reads it as [dt]): a [dt] without offset comes back
    with the local zone attached and every wall-clock field as read; a [dt]
    with an offset, when its conversion to the local zone succeeds, comes
    back as a [datetime] in the local zone that denotes the same instant. *)
Theorem iso_datetime_normalised (P : platform) (value : string) (dt : datetime) :
  zone_law P ->
  contains "T" value = true ->
  fromisoformat P value = Ok dt ->
  (forall z, tz dt = Some z -> exists w, astimezone_local P dt z = Ok w) ->
  exists r,
    parse_date_or_datetime P value = Ok (Some (Instant r)) /\
    tz r = Some tzlocal /\
    match tz dt with
    | None =>
        (date_of r, hour r, minute r, second r, microsecond r)
        = (date_of dt, hour dt, minute dt, second dt, microsecond dt)
    | Some _ => lit_datetime P r = lit_datetime P dt
    end.
Proof.
  intros L C F A. rewrite (parse_iso P value C), F. cbn [bind].
  destruct (tz dt) as [z|] eqn:Z'.
  - destruct (A z eq_refl) as [w Hw]. rewrite Hw. cbn [bind except_ValueError].
    exists w. split; [reflexivity|].
    now apply (astimezone_local_instant P dt w z).
  - exists (replace_tzinfo dt tzlocal). cbn. auto.
Qed.

Lemma iso_datetime_normalised_witness :
  exists r,
    parse_date_or_datetime east2 "2024-01-01T23:30:00+00:00" = Ok (Some (Instant r)) /\
    tz r = Some tzlocal /\
    lit_datetime east2 r = utc_timestamp 2024 1 1 23 30 0.
Proof.
  apply (iso_datetime_normalised east2 "2024-01-01T23:30:00+00:00"
           (mkdatetime (mkdate 2024 1 1) 23 30 0 0 (Some (timezone 0)) 0)).
  - apply fixed_zone_law.
  - reflexivity.
  - reflexivity.
  - intros z E. inversion E; subst. eexists. vm_compute. reflexivity.
Defined.

(** The claim as the specification words it fails at the edge of the
    calendar: the text is an ISO date-time with an offset, and the parser
    returns no instant. *)
Lemma iso_offset_without_instant :
  isoformat_reader "0001-01-01T00:00:00+01:00"
  = Ok (mkdatetime (mkdate 1 1 1) 0 0 0 0 (Some (timezone HOUR)) 0) /\
  parse_date_or_datetime east2 "0001-01-01T00:00:00+01:00" = Raise OverflowError.
Proof. split; vm_compute; reflexivity. Qed.

(** C7, on the code.  The ISO date-time 9999-12-31T23:30:00-01:00 is read by
    [fromisoformat], its conversion to UTC leaves the years that [datetime]
    can hold, and the [OverflowError] of [astimezone] passes the handler of
    line 67, which catches [ValueError] only: the failure is not the
    parameter error that names the value and the three shapes. *)
Theorem overflow_escapes_handler :
  parse_date_or_datetime east2 "9999-12-31T23:30:00-01:00" = Raise OverflowError /\
  Raise OverflowError <>
  Raise (A := option boundary) (invalid_format "9999-12-31T23:30:00-01:00").
Proof. split; [vm_compute; reflexivity | discriminate]. Qed.

(** Every other failure of the parser is the parameter error: as long as
    [fromisoformat] raises [ValueError] only, a failure that is not
    [invalid_format value] comes out of [astimezone]. *)
Lemma parse_failure_cases (P : platform) (value : string) (e : exn) :
  (forall s e', fromisoformat P s = Raise e' -> e' = ValueError) ->
  parse_date_or_datetime P value = Raise e ->
  e = invalid_format value \/
  exists dt z, fromisoformat P value = Ok dt /\ tz dt = Some z /\
               astimezone_local P dt z = Raise e /\ e <> ValueError.
Proof.
  intros V. unfold parse_date_or_datetime.
  destruct (String.eqb value EmptyString); [discriminate|].
  destruct (fullmatch time_pattern (chars value)) as [g|].
  - unfold time_replace. destruct (check_time_fields _ _ _ _); cbn.
    + discriminate.
    + intros H. inversion H. now left.
  - destruct (negb (contains "T" value)).
    + unfold strptime_Ymd.
      destruct (prefix_match date_pattern (chars value)) as [[[|? ?] found]|]; cbn;
        try (intros H; inversion H; now left).
      unfold date_new. destruct (check_date_fields _ _ _); cbn.
      * discriminate.
      * intros H. inversion H. now left.
    + destruct (fromisoformat P value) as [dt|e'] eqn:F; cbn.
      * destruct (tz dt) as [z|] eqn:Z'; [|discriminate].
        destruct (astimezone_local P dt z) as [w|e''] eqn:A; cbn; [discriminate|].
        destruct e''; intros H; inversion H; subst;
          try (now left);
          right; exists dt, z; repeat split; auto; discriminate.
      * rewrite (V value e' F). cbn. intros H. inversion H. now left.
Qed.

(** ** [strptime] with [%Y-%m-%d] *)

#[local] Arguments check_date_fields : simpl never.

(** Solve a test on a character from the facts about its code. *)
Ltac char_fact :=
  first
  [ assumption
  | reflexivity
  | lazymatch goal with
    | |- is_digit ?c = true => apply digit_range; lia
    | |- between ?lo ?hi ?c = true =>
        let l := eval vm_compute in (code lo) in
        let h := eval vm_compute in (code hi) in
        apply between_range; change (code lo) with l; change (code hi) with h; lia
    end ].

Ltac field_fact :=
  first
  [ solve [apply field_two; char_fact]
  | solve [apply field_one; char_fact]
  | solve [apply field_blank; [reflexivity | char_fact]] ].

Lemma strptime_text (value : string) (dt : datetime) :
  strptime_Ymd value = Ok dt ->
  exists y m dd,
    date_text (chars value) y m dd /\ dt = mkdatetime (mkdate y m dd) 0 0 0 0 None 0.
Proof.
  unfold strptime_Ymd, date_new.
  generalize (chars value). intros l H.
  unfold prefix_match, date_pattern, rng, Lit, digit in H.
  repeat step_in H.
  all: cbn in H; unfold bind in H.
  all: match type of H with
       | context [check_date_fields ?y ?m ?dd] =>
           destruct (check_date_fields y m dd) eqn:C; [|discriminate H]
       end.
  all: inversion H; subst; clear H.
  all: cbn [group_int group Nat.eqb] in *.
  all: repeat match goal with
       | T : is_char _ ?c = true |- _ => apply is_char_eq in T; subst c
       end.
  all: match goal with
       | |- context [int_of_field [?a; ?b; ?c; ?e]] =>
           rewrite (int_of_field_digits a [b; c; e]) in * by assumption
       end.
  all: match goal with
       | |- context [mkdate (int_of_digits ?Y) (int_of_field ?M) (int_of_field ?D)] =>
           exists (int_of_digits Y), (int_of_field M), (int_of_field D);
           split; [|reflexivity];
           apply (date_text_intro Y M D);
           [ reflexivity
           | unfold all_digits; cbn [forallb];
             repeat (rewrite (proj2 (digit_range _)) by assumption); reflexivity
           | field_fact
           | field_fact
           | assumption ]
       end.
Qed.

Lemma days_in_month_le_31 (y m : Z) : days_in_month y m <= 31.
Proof.
  unfold days_in_month. destruct ((m =? 2) && is_leap y); [lia|].
  unfold DAYS_IN_MONTH.
  destruct m as [|p|p]; try lia.
  do 4 (destruct p as [p|p|]; try lia).
Qed.

Lemma check_date_fields_bounds (y m dd : Z) :
  check_date_fields y m dd = true ->
  1 <= y <= 9999 /\ 1 <= m <= 12 /\ 1 <= dd <= 31.
Proof.
  unfold check_date_fields, MINYEAR, MAXYEAR. intros H.
  repeat (apply andb_true_iff in H; destruct H as [H ?]).
  rewrite ?Z.leb_le in *.
  pose proof (days_in_month_le_31 y m). lia.
Qed.

Lemma int_of_field_2 (a b : ascii) :
  is_digit a = true ->
  int_of_field [a; b] = 10 * (code a - 48) + (code b - 48).
Proof. intros D. rewrite int_of_field_digits by assumption. apply int_of_digits_2. Qed.

Lemma int_of_field_1 (a : ascii) :
  is_digit a = true -> int_of_field [a] = code a - 48.
Proof. intros D. rewrite int_of_field_digits by assumption. apply int_of_digits_1. Qed.

Lemma int_of_field_blank (a : ascii) :
  is_digit a = true -> int_of_field [" "%char; a] = code a - 48.
Proof.
  intros D. unfold int_of_field. rewrite is_char_refl.
  fold (int_of_field [a]). now apply int_of_field_1.
Qed.

Ltac note_all :=
  repeat match goal with
  | E : is_digit ?c = true |- _ =>
      lazymatch goal with
      | _ : 48 <= code c <= 57 |- _ => fail
      | _ => pose proof (proj1 (digit_range c) E)
      end
  | E : between "1" "9" ?c = true |- _ =>
      lazymatch goal with
      | _ : 49 <= code c <= 57 |- _ => fail
      | _ => let F := fresh "F" in
             pose proof (proj1 (between_range "1" "9" c) E) as F;
             change (code "1") with 49 in F; change (code "9") with 57 in F
      end
  end.

Lemma date_text_strptime (value : string) (y m dd : Z) :
  date_text (chars value) y m dd ->
  strptime_Ymd value = Ok (mkdatetime (mkdate y m dd) 0 0 0 0 None 0).
Proof.
  unfold strptime_Ymd. generalize (chars value). intros l T.
  destruct T as [Y M D LY DY FM FD C].
  destruct Y as [|y1 [|y2 [|y3 [|y4 [|? ?]]]]]; try discriminate LY.
  unfold all_digits in DY. cbn [forallb] in DY.
  repeat (apply andb_true_iff in DY; destruct DY as [? DY]).
  pose proof (check_date_fields_bounds _ _ _ C) as (_ & Bm & Bd).
  pose proof C as C'. revert C'.
  destruct FM as [a b Da Db | a Ra | a Bl Ra]; [ | | discriminate Bl].
  all: destruct FD as [e f De Df | e Re | e _ Re].
  all: note_all.
  all: repeat match goal with
       | B : context [int_of_field [?p; ?q]] |- _ =>
           first [ rewrite (int_of_field_2 p q) in B by (apply digit_range; lia)
                 | rewrite (int_of_field_blank q) in B by (apply digit_range; lia) ]
       | B : context [int_of_field [?p]] |- _ =>
           rewrite (int_of_field_1 p) in B by (apply digit_range; lia)
       end.
  all: intros C'; clear C.
  all: unfold prefix_match, date_pattern, rng, Lit, digit.
  all: repeat step_goal.
  all: cbn; unfold date_new; cbn [group_int group Nat.eqb].
  all: rewrite (int_of_field_digits y1 [y2; y3; y4]) by assumption.
  all: rewrite C'; reflexivity.
Qed.

Lemma strptime_iff (value : string) (dt : datetime) :
  strptime_Ymd value = Ok dt <->
  exists y m dd,
    date_text (chars value) y m dd /\ dt = mkdatetime (mkdate y m dd) 0 0 0 0 None 0.
Proof.
  split.
  - apply strptime_text.
  - intros (y & m & dd & T & ->). now apply date_text_strptime.
Qed.

Lemma strptime_raises (value : string) (e : exn) :
  strptime_Ymd value = Raise e -> e = ValueError.
Proof.
  unfold strptime_Ymd, date_new.
  destruct (prefix_match date_pattern (chars value)) as [[[|? ?] found]|];
    try (intros H; now inversion H).
  destruct (check_date_fields _ _ _); cbn; intros H; now inversion H.
Qed.

(** C5, as the code has it.  A non-empty string in ASCII without [T]
    that is not a clock time is parsed to a calendar date exactly when it
    names a valid date as a four-digit year, a month and a day separated by
    hyphens, the month and the day written with two digits or without the
    leading zero (the day also with a space in its place); the result is
    the date with these components and no time of day.  Every other such
    string raises the parameter error. *)
Theorem date_without_T (P : platform) (value : string) :
  ascii_text value ->
  value <> EmptyString ->
  clock_fields value = None ->
  contains "T" value = false ->
  (exists y m dd,
      date_text (chars value) y m dd /\
      parse_date_or_datetime P value = Ok (Some (Day (mkdate y m dd))))
  \/
  ((forall y m dd, ~ date_text (chars value) y m dd) /\
   parse_date_or_datetime P value = Raise (invalid_format value)).
Proof.
  intros _ NE NC NT. unfold parse_date_or_datetime.
  apply String.eqb_neq in NE. rewrite NE.
  unfold clock_fields in NC.
  destruct (fullmatch time_pattern (chars value)); [discriminate|].
  rewrite NT. cbn [negb].
  destruct (strptime_Ymd value) as [dt|e] eqn:S.
  - left. apply strptime_iff in S. destruct S as (y & m & dd & T & ->).
    exists y, m, dd. split; [assumption | reflexivity].
  - right. split.
    + intros y m dd T. apply date_text_strptime in T. congruence.
    + apply strptime_raises in S. subst e. reflexivity.
Qed.

Lemma date_without_T_witness :
  (exists y m dd,
      date_text (chars "2024-01-15") y m dd /\
      parse_date_or_datetime east2 "2024-01-15" = Ok (Some (Day (mkdate y m dd))))
  \/
  ((forall y m dd, ~ date_text (chars "2024-01-15") y m dd) /\
   parse_date_or_datetime east2 "2024-01-15" = Raise (invalid_format "2024-01-15")).
Proof.
  apply (date_without_T east2 "2024-01-15").
  - reflexivity.
  - discriminate.
  - reflexivity.
  - reflexivity.
Defined.

(** The claim as the specification words it fails on ["2024-1-5"]: the
    string is not of the exact form [YYYY-MM-DD], and no error is raised. *)
Lemma inexact_date_accepted :
  exact_Ymd "2024-1-5" = false /\
  parse_date_or_datetime east2 "2024-1-5" = Ok (Some (Day (mkdate 2024 1 5))).
Proof. split; reflexivity. Qed.

(** A date in the exact form is read with the components it shows. *)
Example exact_date_read :
  parse_date_or_datetime east2 "2024-02-29" = Ok (Some (Day (mkdate 2024 2 29))) /\
  parse_date_or_datetime east2 "2023-02-29" = Raise (invalid_format "2023-02-29").
Proof. split; reflexivity. Qed.

(** ** The range filter *)

Lemma subseq_refl {A : Type} (l : list A) : subseq l l.
Proof. induction l; [apply subseq_nil | apply subseq_keep; assumption]. Qed.

Lemma subseq_trans {A : Type} (xs ys zs : list A) :
  subseq xs ys -> subseq ys zs -> subseq xs zs.
Proof.
  intros H1 H2. revert xs H1.
  induction H2 as [|z ys zs H2 IH|z ys zs H2 IH]; intros xs H1.
  - assumption.
  - apply subseq_skip. now apply IH.
  - inversion H1; subst.
    + apply subseq_skip. now apply IH.
    + apply subseq_keep. now apply IH.
Qed.

Lemma filter_subseq {A : Type} (p : A -> bool) (l : list A) :
  subseq (filter p l) l.
Proof.
  induction l as [|x l IH]; simpl; [apply subseq_nil|].
  destruct (p x); [apply subseq_keep | apply subseq_skip]; assumption.
Qed.

Lemma filter_idempotent {A : Type} (p : A -> bool) (l : list A) :
  filter p (filter p l) = filter p l.
Proof.
  induction l as [|x l IH]; simpl; [reflexivity|].
  destruct (p x) eqn:E; simpl; rewrite ?E, IH; reflexivity.
Qed.

Lemma filter_swap {A : Type} (p q : A -> bool) (l : list A) :
  filter p (filter q l) = filter q (filter p l).
Proof.
  induction l as [|x l IH]; simpl; [reflexivity|].
  destruct (p x) eqn:Ep, (q x) eqn:Eq; simpl; rewrite ?Ep, ?Eq, IH; reflexivity.
Qed.

Lemma filter_start_mask (P : platform) (v : option boundary) (df : DataFrame) :
  filter_start P v df = filter (start_mask P v) df.
Proof. destruct v as [[dd|dt]|]; reflexivity. Qed.

Lemma filter_end_mask (P : platform) (v : option boundary) (df : DataFrame) :
  filter_end P v df = filter (end_mask P v) df.
Proof. destruct v as [[dd|dt]|]; reflexivity. Qed.

(** The rows that the range filter keeps. *)
Lemma range_filter_In (P : platform) (fr : FilterRange) (df : DataFrame)
    (r : HistoryRecord) :
  In r (range_filter P fr df) <->
  In r df /\
  (forall v, range_start fr = Some v -> start_mask P (Some v) r = true) /\
  (forall v, range_end fr = Some v -> end_mask P (Some v) r = true).
Proof.
  unfold range_filter.
  destruct (range_start fr) as [sv|], (range_end fr) as [ev|];
    rewrite ?filter_end_mask, ?filter_start_mask, ?filter_In.
  - split.
    + intros [[I S] E]. repeat split; auto; intros v Hv; now inversion Hv; subst.
    + intros (I & S & E). auto.
  - split.
    + intros [I S]. repeat split; auto; intros v Hv; [now inversion Hv; subst | discriminate].
    + intros (I & S & E). auto.
  - split.
    + intros [I E]. repeat split; auto; intros v Hv; [discriminate | now inversion Hv; subst].
    + intros (I & S & E). auto.
  - split.
    + intros I. repeat split; auto; intros v Hv; discriminate.
    + tauto.
Qed.

Lemma parse_returns_bound (P : platform) (value : string) (r : option boundary) :
  value <> EmptyString -> parse_date_or_datetime P value = Ok r -> r <> None.
Proof.
  intros NE. unfold parse_date_or_datetime.
  apply String.eqb_neq in NE. rewrite NE.
  destruct (fullmatch time_pattern (chars value)) as [g|].
  - destruct (time_replace _ _ _ _) as [t|[]]; cbn; intros H; inversion H; discriminate.
  - destruct (negb (contains "T" value)).
    + destruct (strptime_Ymd value) as [dt|[]]; cbn; intros H; inversion H; discriminate.
    + destruct (fromisoformat P value) as [dt|[]]; cbn;
        try (intros H; inversion H; discriminate).
      destruct (tz dt) as [z|]; [|intros H; inversion H; discriminate].
      destruct (astimezone_local P dt z) as [w|[]]; cbn;
        intros H; inversion H; discriminate.
Qed.

Lemma truthy_nonempty (o : option string) (s : string) :
  truthy o = Some s -> s <> EmptyString.
Proof.
  destruct o as [t|]; [|discriminate]. cbn.
  destruct (String.eqb_spec t EmptyString); [discriminate|]. intros H. now inversion H; subst.
Qed.

(** The frame that [main] renders is the range filter applied with the
    bounds that the parser returned. *)
Lemma filtered_range_filter (P : platform) (df : DataFrame)
    (start end_ : option string) (sv ev : option boundary) :
  bound_of P start = Ok sv -> bound_of P end_ = Ok ev ->
  filtered P (Ok df) start end_ = Ok (range_filter P (mkrange sv ev) df).
Proof.
  unfold bound_of, filtered, range_filter. cbn [bind range_start range_end].
  destruct (truthy start) as [s|] eqn:Ts.
  - intros Ps. rewrite Ps. cbn [bind].
    pose proof (parse_returns_bound P s sv (truthy_nonempty _ _ Ts) Ps) as Ns.
    destruct sv as [v|]; [|contradiction].
    destruct (truthy end_) as [e|] eqn:Te.
    + intros Pe. rewrite Pe. cbn [bind].
      pose proof (parse_returns_bound P e ev (truthy_nonempty _ _ Te) Pe) as Ne.
      destruct ev as [v'|]; [reflexivity | contradiction].
    + intros H. inversion H; subst. reflexivity.
  - intros H. inversion H; subst. cbn [bind].
    destruct (truthy end_) as [e|] eqn:Te.
    + intros Pe. rewrite Pe. cbn [bind].
      pose proof (parse_returns_bound P e ev (truthy_nonempty _ _ Te) Pe) as Ne.
      destruct ev as [v'|]; [reflexivity | contradiction].
    + intros H'. inversion H'; subst. reflexivity.
Qed.

(** C8. Filtering an already filtered frame with the same parsed bounds
    changes nothing, and the filtered frame is the input with rows left out,
    the remaining rows in their input order. *)
Theorem range_filter_idempotent_stable (P : platform) (fr : FilterRange) (df : DataFrame) :
  range_filter P fr (range_filter P fr df) = range_filter P fr df /\
  subseq (range_filter P fr df) df.
Proof.
  unfold range_filter.
  destruct (range_start fr) as [sv|], (range_end fr) as [ev|];
    rewrite ?filter_end_mask, ?filter_start_mask.
  - split.
    + rewrite (filter_swap (start_mask P (Some sv)) (end_mask P (Some ev))
                 (filter (start_mask P (Some sv)) df)).
      now rewrite !filter_idempotent.
    + eapply subseq_trans; apply filter_subseq.
  - split; [apply filter_idempotent | apply filter_subseq].
  - split; [apply filter_idempotent | apply filter_subseq].
  - split; [reflexivity | apply subseq_refl].
Qed.

(** ** [main] *)

Lemma filtered_of_empty (P : platform) (start end_ : option string) (out : DataFrame) :
  filtered P (Ok []) start end_ = Ok out -> out = [].
Proof.
  unfold filtered. cbn [bind].
  destruct (truthy start) as [s|].
  - destruct (parse_date_or_datetime P s) as [sv|]; [|discriminate]. cbn [bind].
    rewrite filter_start_mask. cbn [filter].
    destruct (truthy end_) as [e|].
    + destruct (parse_date_or_datetime P e) as [ev|]; [|discriminate]. cbn [bind].
      rewrite filter_end_mask. cbn [filter]. congruence.
    + congruence.
  - cbn [bind]. destruct (truthy end_) as [e|].
    + destruct (parse_date_or_datetime P e) as [ev|]; [|discriminate]. cbn [bind].
      rewrite filter_end_mask. cbn [filter]. congruence.
    + congruence.
Qed.




(** ** The run on the libraries *)

Lemma comparison_literal_ok (P : platform) (v : option boundary) :
  comparable P v <-> comparison_literal P v = Ok tt.
Proof.
  destruct v as [[dd|dt]|]; cbn [comparable comparison_literal]; try tauto.
  destruct (tz dt) as [z|]; [|tauto].
  replace (wall dt - tz_utcoffset P z dt) with (wall dt + - tz_utcoffset P z dt) by lia.
  split.
  - intros R. destruct (add_timedelta_ok dt (- tz_utcoffset P z dt) R) as (r & E & _).
    rewrite E. reflexivity.
  - intros H. destruct (add_timedelta dt (- tz_utcoffset P z dt)) as [r|e] eqn:A;
      [|discriminate H].
    apply add_timedelta_wall in A. tauto.
Qed.

(** The literal fails in one way only, and exactly when the bound leaves
    the years 1 to 9999 on the UTC clock. *)
Lemma comparison_literal_raises (P : platform) (v : option boundary) (e : exn) :
  comparison_literal P v = Raise e <-> e = OverflowError /\ ~ comparable P v.
Proof.
  split.
  - intros H. split.
    + destruct v as [[dd|dt]|]; cbn [comparison_literal] in H; try discriminate H.
      destruct (tz dt) as [z|]; [|discriminate H].
      destruct (add_timedelta dt (- tz_utcoffset P z dt)) as [r|e'] eqn:A;
        cbn [bind] in H; [discriminate H|].
      inversion H; subst. exact (add_timedelta_raises _ _ _ A).
    + intros C. apply comparison_literal_ok in C. congruence.
  - intros [-> N].
    destruct (comparison_literal P v) as [[]|e'] eqn:H.
    + exfalso. apply N. now apply comparison_literal_ok.
    + f_equal.
      destruct v as [[dd|dt]|]; cbn [comparison_literal] in H; try discriminate H.
      destruct (tz dt) as [z|]; [|discriminate H].
      destruct (add_timedelta dt (- tz_utcoffset P z dt)) as [r|e''] eqn:A;
        cbn [bind] in H; [discriminate H|].
      inversion H; subst. exact (add_timedelta_raises _ _ _ A).
Qed.

Lemma filter_start_run_ok (P : platform) (v : option boundary) (df : DataFrame) :
  comparable P v -> filter_start_run P v df = Ok (filter_start P v df).
Proof.
  intros C. unfold filter_start_run.
  rewrite (proj1 (comparison_literal_ok P v) C). reflexivity.
Qed.

Lemma filter_end_run_ok (P : platform) (v : option boundary) (df : DataFrame) :
  comparable P v -> filter_end_run P v df = Ok (filter_end P v df).
Proof.
  intros C. unfold filter_end_run.
  rewrite (proj1 (comparison_literal_ok P v) C). reflexivity.
Qed.

(** With bounds that polars can make literals of, the run applies the
    range filter. *)
Lemma range_filter_run_ok (P : platform) (fr : FilterRange) (df : DataFrame) :
  comparable P (range_start fr) -> comparable P (range_end fr) ->
  range_filter_run P fr df = Ok (range_filter P fr df).
Proof.
  unfold range_filter_run, range_filter.
  destruct (range_start fr) as [sv|], (range_end fr) as [ev|]; intros Cs Ce;
    rewrite ?(filter_start_run_ok P (Some sv) df Cs); cbn [bind];
    rewrite ?(filter_end_run_ok P (Some ev) _ Ce); reflexivity.
Qed.

Lemma filtered_run_range (P : platform) (df : DataFrame)
    (start end_ : option string) (sv ev : option boundary) :
  bound_of P start = Ok sv -> bound_of P end_ = Ok ev ->
  comparable P sv -> comparable P ev ->
  filtered_run P (Ok df) start end_ = Ok (range_filter P (mkrange sv ev) df).
Proof.
  intros Bs Be Cs Ce.
  rewrite <- (filtered_range_filter P df start end_ sv ev Bs Be).
  unfold bound_of in Bs, Be. unfold filtered_run, filtered. cbn [bind].
  destruct (truthy start) as [s|].
  - rewrite Bs. cbn [bind]. rewrite (filter_start_run_ok P sv df Cs). cbn [bind].
    destruct (truthy end_) as [e|]; [|reflexivity].
    rewrite Be. cbn [bind]. now rewrite (filter_end_run_ok P ev _ Ce).
  - cbn [bind]. destruct (truthy end_) as [e|]; [|reflexivity].
    rewrite Be. cbn [bind]. now rewrite (filter_end_run_ok P ev _ Ce).
Qed.

(** A frame that leaves the filters of the run is the frame of
    [filtered]: the literals add failures and change no result. *)
Lemma filtered_run_filtered (P : platform) (history : result DataFrame)
    (start end_ : option string) (out : DataFrame) :
  filtered_run P history start end_ = Ok out ->
  filtered P history start end_ = Ok out.
Proof.
  unfold filtered_run, filtered, filter_start_run, filter_end_run.
  destruct history as [df|e]; cbn [bind]; [|discriminate].
  destruct (truthy start) as [s|].
  - destruct (parse_date_or_datetime P s) as [sv|]; cbn [bind]; [|discriminate].
    destruct (comparison_literal P sv) as [[]|]; cbn [bind]; [|discriminate].
    destruct (truthy end_) as [e|]; [|auto].
    destruct (parse_date_or_datetime P e) as [ev|]; cbn [bind]; [|discriminate].
    destruct (comparison_literal P ev) as [[]|]; cbn [bind]; [auto|discriminate].
  - cbn [bind]. destruct (truthy end_) as [e|]; [|auto].
    destruct (parse_date_or_datetime P e) as [ev|]; cbn [bind]; [|discriminate].
    destruct (comparison_literal P ev) as [[]|]; cbn [bind]; [auto|discriminate].
Qed.

Lemma main_run_of_empty (P : platform) (L : writers) (history : result DataFrame)
    (start end_ : option string) (output_format : string) :
  filtered_run P history start end_ = Ok [] ->
  main_run P L history start end_ output_format
  = mkreport [Echo no_history] (Raised (Program (Exit 0))).
Proof. intros H. unfold main_run. rewrite H. reflexivity. Qed.

(** A run that returns has written what [main] writes. *)
Lemma main_run_finished (P : platform) (L : writers) (history : result DataFrame)
    (start end_ : option string) (output_format : string) (out : list output) :
  main_run P L history start end_ output_format = mkreport out Finished ->
  main P history start end_ output_format = mkrun out (Ok tt).
Proof.
  unfold main_run, main.
  destruct (filtered_run P history start end_) as [df|e] eqn:F; [|discriminate].
  rewrite (filtered_run_filtered P history start end_ df F).
  destruct (Nat.eqb (List.length df) 0); [discriminate|].
  destruct (String.eqb output_format "table").
  { destruct (table_rows P (select df)); intros H; inversion H. reflexivity. }
  destruct (String.eqb output_format "json").
  { destruct (write_json L (select df)); intros H; inversion H. reflexivity. }
  destruct (String.eqb output_format "csv").
  { destruct (write_csv L (select df)); intros H; inversion H. reflexivity. }
  discriminate.
Qed.

(** C3, as the code has it.  When the values of [--start] and [--end] get
    through the parser and polars can make literals of them (the run
    reaches line 108), and the acquired frame is empty or the range filter
    leaves no row, the program writes the one line [no_history], hands
    nothing to a renderer and exits with code 0. *)
Theorem no_matches_exit_zero (P : platform) (L : writers) (df : DataFrame)
    (start end_ : option string) (sv ev : option boundary) (output_format : string) :
  bound_of P start = Ok sv -> bound_of P end_ = Ok ev ->
  comparable P sv -> comparable P ev ->
  df = [] \/ range_filter P (mkrange sv ev) df = [] ->
  main_run P L (Ok df) start end_ output_format
  = mkreport [Echo no_history] (Raised (Program (Exit 0))).
Proof.
  intros Bs Be Cs Ce E.
  apply main_run_of_empty.
  rewrite (filtered_run_range P df start end_ sv ev Bs Be Cs Ce). f_equal.
  destruct E as [-> | E]; [|exact E].
  unfold range_filter. cbn [range_start range_end].
  destruct sv as [v|], ev as [v'|];
    rewrite ?filter_start_mask, ?filter_end_mask; reflexivity.
Qed.

Lemma no_matches_exit_zero_witness :
  main_run east2 writers_returning (Ok [sample_row]) (Some "2030-01-01") None "table"
  = mkreport [Echo no_history] (Raised (Program (Exit 0))).
Proof.
  apply (no_matches_exit_zero east2 writers_returning [sample_row]
           (Some "2030-01-01") None (Some (Day (mkdate 2030 1 1))) None "table").
  - reflexivity.
  - reflexivity.
  - exact I.
  - exact I.
  - right. reflexivity.
Defined.

(** The claim as the specification words it fails when a bound is refused:
    the acquired frame is empty, and the run ends with the parameter error,
    without the [no_history] line and without exit code 0. *)
Lemma empty_history_bad_bound :
  main_run east2 writers_returning (Ok []) (Some "yesterday") None "table"
  = mkreport [] (Raised (Program (invalid_format "yesterday"))).
Proof. reflexivity. Qed.

(** It fails as well for a bound that the parser returns and polars cannot
    make a literal of: two hours east of UTC the first instant of year 1
    lies before that year on the UTC clock, and line 99 raises. *)
Example empty_history_early_bound :
  parse_date_or_datetime east2 "0001-01-01T00:00:00"
  = Ok (Some (Instant (mkdatetime (mkdate 1 1 1) 0 0 0 0 (Some tzlocal) 0))) /\
  main_run east2 writers_returning (Ok []) (Some "0001-01-01T00:00:00") None "table"
  = mkreport [] (Raised (Program OverflowError)).
Proof. split; reflexivity. Qed.





(** The renderers at work: a table for a row that can be shown, JSON from
    a polars that knows the keyword and the [TypeError] of one that does
    not, and an unknown format. *)
Example renderers_at_work :
  main_run east2 writers_returning (Ok [sample_row]) None None "table"
  = mkreport [Table (select [sample_row])] Finished /\
  main_run east2 writers_returning (Ok [sample_row]) None None "json"
  = mkreport [Json (select [sample_row])] Finished /\
  main_run east2 writers_without_row_oriented (Ok [sample_row]) None None "json"
  = mkreport []
      (Raised (Library
         "DataFrame.write_json() got an unexpected keyword argument 'row_oriented'")) /\
  main_run east2 writers_returning (Ok [sample_row]) None None "xml"
  = mkreport [Echo "Unknown output format: xml"] (Raised (Program (Exit 1))).
Proof. repeat split; reflexivity. Qed.

(** The text of [--format] is compared as it was typed: [case_sensitive]
    has no effect on a [str] option, and line 140 compares with [==]. *)
Example format_compared_as_typed :
  main_run east2 writers_returning (Ok [sample_row]) None None "JSON"
  = mkreport [Echo "Unknown output format: JSON"] (Raised (Program (Exit 1))).
Proof. reflexivity. Qed.

(** ** Date bounds and the local day *)

Lemma add_timedelta_day (dt r : datetime) (delta : Z) :
  add_timedelta dt delta = Ok r ->
  toordinal (date_of r) = (wall dt + delta) / US_PER_DAY.
Proof.
  unfold add_timedelta. cbv zeta.
  destruct ((0 <? _) && _); [|discriminate].
  intros H. inversion H; subst; clear H. cbn [date_of].
  apply toordinal_fromordinal.
Qed.

(** On a machine whose zone is a fixed offset, the local day of a
    timestamp is the day of the timestamp moved by the offset. *)
Lemma local_date_fixed_zone (offset : Z) (clock : datetime) (ts : Z) (dd : date) :
  local_date (fixed_zone offset clock) ts = Ok dd ->
  lit_date dd = (ts + offset) / US_PER_DAY.
Proof.
  unfold local_date. cbn [local_fromutc fixed_zone].
  destruct (add_timedelta _ ts) as [utc|] eqn:A; [|discriminate]. cbn [bind].
  destruct (add_timedelta utc offset) as [w|] eqn:B; [|discriminate]. cbn [bind].
  intros H. inversion H; subst; clear H.
  apply add_timedelta_wall in A. destruct A as (_ & WA & _).
  apply add_timedelta_day in B. unfold lit_date. rewrite B, WA.
  change (wall _) with (EPOCH_ORDINAL * US_PER_DAY) at 1.
  unfold EPOCH_ORDINAL, US_PER_DAY, US_PER_SECOND.
  Z.div_mod_to_equations. lia.
Qed.

(** What line 97 and line 104 compare with a date bound: the day of the
    timestamp in UTC. *)
Lemma date_bounds_In (P : platform) (s e : date) (df : DataFrame) (r : HistoryRecord) :
  In r (range_filter P (mkrange (Some (Day s)) (Some (Day e))) df) <->
  In r df /\ lit_date s <= start_timestamp r / US_PER_DAY <= lit_date e.
Proof.
  rewrite range_filter_In. cbn [range_start range_end].
  split.
  - intros (I & S & E). specialize (S _ eq_refl). specialize (E _ eq_refl).
    cbn in S, E. unfold dt_date in *. rewrite Z.leb_le in S, E. auto.
  - intros (I & S & E). repeat split; auto; intros v Hv; inversion Hv; subst; cbn;
      unfold dt_date; apply Z.leb_le; assumption.
Qed.

(** On a machine on UTC the two days agree, and the range filter keeps the
    rows whose local day lies between the two date bounds. *)
Lemma date_bounds_on_utc (clock : datetime) (s e : date) (df : DataFrame)
    (r : HistoryRecord) (dd : date) :
  local_date (fixed_zone 0 clock) (start_timestamp r) = Ok dd ->
  (In r (range_filter (fixed_zone 0 clock) (mkrange (Some (Day s)) (Some (Day e))) df)
   <-> In r df /\ lit_date s <= lit_date dd <= lit_date e).
Proof.
  intros L. apply local_date_fixed_zone in L. rewrite Z.add_0_r in L.
  rewrite date_bounds_In, L. reflexivity.
Qed.

(** The scenario of the specification, on a machine on UTC. *)
Example scenario_on_utc :
  let a := mkrecord "a" "/" (utc_timestamp 2024 1 1 10 0 0) in
  let b := mkrecord "b" "/" (utc_timestamp 2024 1 2 23 59 59) in
  let c := mkrecord "c" "/" (utc_timestamp 2024 1 5 0 0 0) in
  filtered on_utc (Ok [a; b; c]) (Some "2024-01-02") (Some "2024-01-02") = Ok [b].
Proof. reflexivity. Qed.

(** C1, on the code.  On a machine two hours east of UTC, the row written
    at 2024-01-01T23:30:00+00:00 has the local day 2024-01-02, which is not
    before the start bound 2024-01-02; line 97 compares the UTC day
    2024-01-01 of the column and drops the row, so the run finds no
    history. *)
Theorem date_bound_uses_utc_day :
  local_date east2 (start_timestamp sample_row) = Ok (mkdate 2024 1 2) /\
  parse_date_or_datetime east2 "2024-01-02" = Ok (Some (Day (mkdate 2024 1 2))) /\
  filtered east2 (Ok [sample_row]) (Some "2024-01-02") None = Ok [] /\
  main east2 (Ok [sample_row]) (Some "2024-01-02") None "table"
  = mkrun [Echo no_history] (Raise (Exit 0)).
Proof. repeat split; reflexivity. Qed.

(** * Further properties of the program *)

(** ** The parser *)

(** X1. The parser returns [None] for the empty string and for no other
    string: every other accepted value gives a date or an instant. *)
Theorem parse_none_iff_empty (P : platform) (value : string) :
  parse_date_or_datetime P value = Ok None <-> value = EmptyString.
Proof.
  split.
  - intros H. destruct (string_dec value EmptyString) as [E | N]; [exact E|].
    exfalso. now apply (parse_returns_bound P value None N H).
  - intros ->. reflexivity.
Qed.

(** X2. Every instant that the parser returns carries the local zone,
    whichever of the three shapes the value had (for a local zone whose
    [fromutc] answers in that zone). *)
Theorem instants_are_local (P : platform) (value : string) (dt : datetime) :
  zone_law P ->
  parse_date_or_datetime P value = Ok (Some (Instant dt)) ->
  tz dt = Some tzlocal.
Proof.
  intros L. unfold parse_date_or_datetime.
  destruct (String.eqb value EmptyString); [discriminate|].
  destruct (fullmatch time_pattern (chars value)) as [g|].
  - destruct (time_replace _ _ _ _) as [t|[]]; cbn; intros H; inversion H.
    reflexivity.
  - destruct (negb (contains "T" value)).
    + destruct (strptime_Ymd value) as [d0|[]]; cbn; intros H; inversion H.
    + destruct (fromisoformat P value) as [d0|[]]; cbn;
        try (intros H; now inversion H).
      destruct (tz d0) as [z|] eqn:Z'.
      * destruct (astimezone_local P d0 z) as [w|[]] eqn:A; cbn;
          intros H; inversion H; subst.
        now apply (astimezone_local_instant P d0 dt z L Z' A).
      * intros H. inversion H. reflexivity.
Qed.

Lemma instants_are_local_witness :
  tz (today_at east2 9 5 0) = Some tzlocal.
Proof.
  apply (instants_are_local east2 "9:05" (today_at east2 9 5 0)).
  - apply fixed_zone_law.
  - reflexivity.
Defined.

(** X3. A calendar date comes back only for a value without [T], and
    the date is one of the calendar: year 1 to 9999, month 1 to 12, day
    within the month.  When the value is text in ASCII, it is the text of
    that date. *)
Theorem day_is_valid_date (P : platform) (value : string) (dd : date) :
  parse_date_or_datetime P value = Ok (Some (Day dd)) ->
  contains "T" value = false /\
  check_date_fields (year dd) (month dd) (day dd) = true /\
  (ascii_text value -> date_text (chars value) (year dd) (month dd) (day dd)).
Proof.
  unfold parse_date_or_datetime.
  destruct (String.eqb value EmptyString); [discriminate|].
  destruct (fullmatch time_pattern (chars value)) as [g|].
  - destruct (time_replace _ _ _ _) as [t|[]]; cbn; intros H; inversion H.
  - destruct (contains "T" value); cbn [negb].
    + destruct (fromisoformat P value) as [d0|[]]; cbn;
        try (intros H; now inversion H).
      destruct (tz d0) as [z|]; [|intros H; now inversion H].
      destruct (astimezone_local P d0 z) as [w|[]]; cbn; intros H; inversion H.
    + destruct (strptime_Ymd value) as [d0|[]] eqn:S; cbn; intros H; inversion H.
      apply strptime_text in S. destruct S as (y & m & d' & T & ->).
      cbn. split; [reflexivity|]. split; [now inversion T|].
      intros _. exact T.
Qed.

Lemma day_is_valid_date_witness :
  contains "T" "2024-1-5" = false /\
  check_date_fields 2024 1 5 = true /\
  (ascii_text "2024-1-5" -> date_text (chars "2024-1-5") 2024 1 5).
Proof.
  apply (day_is_valid_date east2 "2024-1-5" (mkdate 2024 1 5)).
  reflexivity.
Defined.

Lemma field_text_without_T (blank : bool) (l : list ascii) :
  field_text blank l -> existsb (is_char "T") l = false.
Proof.
  assert (NT : is_digit "T" = false) by reflexivity.
  intros F. destruct F as [a b Da Db | a Ra | a _ Ra].
  - apply (digits_without "T" [a; b] NT).
    unfold all_digits. cbn. now rewrite Da, Db.
  - cbn [existsb]. destruct (is_char "T" a) eqn:E; [|reflexivity].
    apply is_char_eq in E. subst a. discriminate Ra.
  - cbn [existsb]. rewrite orb_false_r.
    destruct (is_char "T" a) eqn:E.
    + apply is_char_eq in E. subst a. discriminate Ra.
    + reflexivity.
Qed.

Lemma date_text_without_T (l : list ascii) (y m dd : Z) :
  date_text l y m dd -> existsb (is_char "T") l = false.
Proof.
  assert (NT : is_digit "T" = false) by reflexivity.
  intros T. destruct T as [Y M D LY DY FM FD C].
  rewrite existsb_app. cbn [existsb]. rewrite existsb_app. cbn [existsb].
  rewrite (digits_without "T" Y NT DY),
          (field_text_without_T false M FM), (field_text_without_T true D FD).
  reflexivity.
Qed.

Lemma date_text_not_clock (l : list ascii) (y m dd h mi s : Z) :
  date_text l y m dd -> clock_text l h mi s -> False.
Proof.
  assert (NC : is_digit ":" = false) by reflexivity.
  intros T K. destruct T as [Y M D LY DY FM FD C].
  destruct Y as [|y1 [|y2 [|y3 [|y4 [|? ?]]]]]; try discriminate LY.
  unfold all_digits in DY. cbn [forallb] in DY.
  repeat (apply andb_true_iff in DY; destruct DY as [? DY]).
  inversion K as [H' M' LH LM DH DM E | H' M' X' LH LM LS DH DM DS E];
    destruct H' as [|a [|b [|? ?]]]; simpl in LH; try lia;
    cbn in E; inversion E; subst; congruence.
Qed.

(** Every text of a date is read as that date. *)
Lemma date_text_parse (P : platform) (value : string) (y m dd : Z) :
  date_text (chars value) y m dd ->
  parse_date_or_datetime P value = Ok (Some (Day (mkdate y m dd))).
Proof.
  intros T. unfold parse_date_or_datetime.
  assert (NE : String.eqb value EmptyString = false).
  { destruct value; [|reflexivity]. cbn in T. inversion T as [Y M D LY].
    destruct Y; discriminate. }
  rewrite NE.
  destruct (fullmatch time_pattern (chars value)) as [g|] eqn:F.
  - exfalso.
    assert (K : clock_fields value <> None) by (unfold clock_fields; now rewrite F).
    destruct (clock_fields value) as [[[h mi] s]|] eqn:K'; [|congruence].
    apply clock_fields_iff in K'. exact (date_text_not_clock _ _ _ _ _ _ _ T K').
  - unfold contains. rewrite (date_text_without_T _ _ _ _ T). cbn [negb].
    rewrite (date_text_strptime value y m dd T). reflexivity.
Qed.

(** X4. The tests of lines 47, 57 and 58 do not overlap, so their order
    decides nothing: a value that matches the clock pattern holds no [T]
    and is refused by [strptime], and a value that [strptime] accepts
    holds no [T] and does not match the clock pattern. *)
Theorem tests_are_exclusive (value : string) :
  (clock_fields value <> None ->
   contains "T" value = false /\ strptime_Ymd value = Raise ValueError) /\
  (forall dt, strptime_Ymd value = Ok dt ->
   clock_fields value = None /\ contains "T" value = false).
Proof.
  split.
  - intros K. destruct (clock_fields value) as [[[h mi] s]|] eqn:F; [|congruence].
    apply clock_fields_iff in F. split.
    + exact (clock_text_without_T _ _ _ _ F).
    + destruct (strptime_Ymd value) as [dt|e] eqn:S.
      * exfalso. apply strptime_text in S. destruct S as (y & m & dd & T & _).
        exact (date_text_not_clock _ _ _ _ _ _ _ T F).
      * apply strptime_raises in S. now subst.
  - intros dt S. apply strptime_text in S. destruct S as (y & m & dd & T & _). split.
    + destruct (clock_fields value) as [[[h mi] s]|] eqn:F; [|reflexivity].
      exfalso. apply clock_fields_iff in F.
      exact (date_text_not_clock _ _ _ _ _ _ _ T F).
    + exact (date_text_without_T _ _ _ _ T).
Qed.

(** ** Decimal fields *)

Lemma code_digit_char (k : Z) : 0 <= k <= 9 -> code (digit_char k) = 48 + k.
Proof.
  intros R. unfold code, digit_char.
  rewrite nat_ascii_embedding by lia. lia.
Qed.

Lemma digit_char_digit (k : Z) : 0 <= k <= 9 -> is_digit (digit_char k) = true.
Proof. intros R. apply digit_range. rewrite code_digit_char by lia. lia. Qed.

Lemma digit_value_char (k : Z) : 0 <= k <= 9 -> digit_value (digit_char k) = k.
Proof.
  intros R. unfold digit_value. rewrite code_digit_char by lia.
  change (code "0") with 48. lia.
Qed.

Lemma pad_length (w : nat) (n : Z) : List.length (pad w n) = w.
Proof.
  revert n. induction w as [|w IH]; intros n; cbn [pad]; [reflexivity|].
  rewrite length_app, IH. cbn. lia.
Qed.

Lemma pad_digits (w : nat) (n : Z) : all_digits (pad w n).
Proof.
  unfold all_digits. revert n.
  induction w as [|w IH]; intros n; cbn [pad]; [reflexivity|].
  rewrite forallb_app, IH. cbn [forallb].
  rewrite digit_char_digit; [reflexivity|].
  pose proof (Z.mod_pos_bound n 10). lia.
Qed.

Lemma int_of_digits_snoc (l : list ascii) (c : ascii) :
  int_of_digits (l ++ [c]) = 10 * int_of_digits l + digit_value c.
Proof. unfold int_of_digits. rewrite fold_left_app. reflexivity. Qed.

Lemma int_of_digits_pad (w : nat) (n : Z) :
  0 <= n < 10 ^ Z.of_nat w -> int_of_digits (pad w n) = n.
Proof.
  revert n. induction w as [|w IH]; intros n R.
  - cbn in *. unfold int_of_digits. cbn. lia.
  - cbn [pad]. rewrite int_of_digits_snoc, digit_value_char.
    2:{ pose proof (Z.mod_pos_bound n 10). lia. }
    rewrite IH.
    + pose proof (Z.div_mod n 10). lia.
    + rewrite Nat2Z.inj_succ, Z.pow_succ_r in R by lia.
      split; [apply Z.div_pos; lia|].
      apply Z.div_lt_upper_bound; lia.
Qed.

Lemma pad_2 (n : Z) :
  pad 2 n = [digit_char ((n / 10) mod 10); digit_char (n mod 10)].
Proof. reflexivity. Qed.

Lemma int_of_field_pad_2 (n : Z) : 0 <= n <= 99 -> int_of_field (pad 2 n) = n.
Proof.
  intros R. rewrite pad_2, int_of_field_digits.
  - rewrite <- pad_2. apply int_of_digits_pad. cbn. lia.
  - apply digit_char_digit. pose proof (Z.mod_pos_bound (n / 10) 10). lia.
Qed.

Lemma field_text_pad_2 (blank : bool) (n : Z) : field_text blank (pad 2 n).
Proof.
  rewrite pad_2. apply field_two; apply digit_char_digit.
  - pose proof (Z.mod_pos_bound (n / 10) 10). lia.
  - pose proof (Z.mod_pos_bound n 10). lia.
Qed.

Lemma date_chars_text (dd : date) :
  check_date_fields (year dd) (month dd) (day dd) = true ->
  date_text (date_chars dd) (year dd) (month dd) (day dd).
Proof.
  intros C. pose proof (check_date_fields_bounds _ _ _ C) as (By & Bm & Bd).
  unfold date_chars.
  rewrite <- (int_of_digits_pad 4 (year dd)) at 2 by (cbn; lia).
  rewrite <- (int_of_field_pad_2 (month dd)) at 2 by lia.
  rewrite <- (int_of_field_pad_2 (day dd)) at 2 by lia.
  apply date_text_intro.
  - apply pad_length.
  - apply pad_digits.
  - apply field_text_pad_2.
  - apply field_text_pad_2.
  - rewrite int_of_digits_pad by (cbn; lia).
    rewrite !int_of_field_pad_2 by lia. exact C.
Qed.

Lemma chars_of_list (l : list ascii) : chars (string_of_list_ascii l) = l.
Proof. apply list_ascii_of_string_of_list_ascii. Qed.

(** X5. A calendar date survives the way through its text: [str(d)] of
    a valid date, that is the zero-padded form [YYYY-MM-DD], is parsed back
    to [d]. *)
Theorem date_isoformat_roundtrip (P : platform) (dd : date) :
  check_date_fields (year dd) (month dd) (day dd) = true ->
  parse_date_or_datetime P (date_isoformat dd) = Ok (Some (Day dd)).
Proof.
  intros C. destruct dd as [y m d']. cbn [year month day] in C.
  apply (date_text_parse P (date_isoformat (mkdate y m d')) y m d').
  unfold date_isoformat. rewrite chars_of_list.
  exact (date_chars_text (mkdate y m d') C).
Qed.

Lemma date_isoformat_roundtrip_witness :
  parse_date_or_datetime east2 (date_isoformat (mkdate 2024 2 29))
  = Ok (Some (Day (mkdate 2024 2 29))).
Proof.
  apply (date_isoformat_roundtrip east2 (mkdate 2024 2 29)).
  reflexivity.
Defined.

Lemma isoformat_reader_raises (value : string) (e : exn) :
  isoformat_reader value = Raise e -> e = ValueError.
Proof.
  unfold isoformat_reader.
  destruct (fullmatch iso_pattern (chars value)) as [g|]; [|intros H; now inversion H].
  destruct (_ && _); intros H; now inversion H.
Qed.

(** X6. On every machine whose [fromisoformat] raises nothing but
    [ValueError] and whose local zone raises nothing but [ValueError] or
    [OverflowError] in [fromutc], the parser fails in two ways only: with
    the parameter error that names the value, or with the [OverflowError]
    of a conversion that leaves the years 1 to 9999. *)
Theorem parser_failures (P : platform) (value : string) (e : exn) :
  (forall s e', fromisoformat P s = Raise e' -> e' = ValueError) ->
  (forall utc e', local_fromutc P utc = Raise e' ->
                  e' = ValueError \/ e' = OverflowError) ->
  parse_date_or_datetime P value = Raise e ->
  e = invalid_format value \/ e = OverflowError.
Proof.
  intros V Z0 H.
  destruct (parse_failure_cases P value e V H) as [E | (dt & z & F & Z' & A & N)].
  - now left.
  - right. unfold astimezone_local in A.
    destruct (add_timedelta dt _) as [utc|e1] eqn:A1; cbn [bind] in A.
    + destruct (Z0 _ _ A) as [E | E]; [contradiction | exact E].
    + inversion A; subst. exact (add_timedelta_raises _ _ _ A1).
Qed.

Lemma parser_failures_witness :
  invalid_format "tomorrow" = invalid_format "tomorrow" \/
  invalid_format "tomorrow" = OverflowError.
Proof.
  apply (parser_failures east2 "tomorrow" (invalid_format "tomorrow")).
  - intros s e' R. exact (isoformat_reader_raises s e' R).
  - intros utc e' R. right. exact (add_timedelta_raises _ _ _ R).
  - reflexivity.
Defined.

(** ** The range filter as an interval of instants *)

Lemma start_mask_floor (P : platform) (v : boundary) (r : HistoryRecord) :
  start_mask P (Some v) r = true <-> start_floor P v <= start_timestamp r.
Proof.
  destruct v as [dd|dt]; cbn [start_mask start_floor]; rewrite Z.leb_le.
  - unfold dt_date, US_PER_DAY, US_PER_SECOND.
    generalize (lit_date dd) (start_timestamp r). intros l t.
    Z.div_mod_to_equations. lia.
  - reflexivity.
Qed.

Lemma end_mask_ceiling (P : platform) (v : boundary) (r : HistoryRecord) :
  end_mask P (Some v) r = true <-> start_timestamp r <= end_ceiling P v.
Proof.
  destruct v as [dd|dt]; cbn [end_mask end_ceiling]; rewrite Z.leb_le.
  - unfold dt_date, US_PER_DAY, US_PER_SECOND.
    generalize (lit_date dd) (start_timestamp r). intros l t.
    Z.div_mod_to_equations. lia.
  - reflexivity.
Qed.

Lemma range_filter_floor_ceiling (P : platform) (fr : FilterRange) (df : DataFrame)
    (r : HistoryRecord) :
  In r (range_filter P fr df) <->
  In r df /\
  (forall v, range_start fr = Some v -> start_floor P v <= start_timestamp r) /\
  (forall v, range_end fr = Some v -> start_timestamp r <= end_ceiling P v).
Proof.
  rewrite range_filter_In. split.
  - intros (I & S & E). split; [exact I|]. split.
    + intros v Hv. apply start_mask_floor. now apply S.
    + intros v Hv. apply end_mask_ceiling. now apply E.
  - intros (I & S & E). split; [exact I|]. split.
    + intros v Hv. apply start_mask_floor. now apply S.
    + intros v Hv. apply end_mask_ceiling. now apply E.
Qed.

(** X7. With bounds that polars can make literals of (an instant within
    the years 1 to 9999 on the UTC clock), the filters of lines 94 to 106
    raise nothing and keep the rows whose instant lies in a closed
    interval.  A date as start bound stands for the first microsecond of
    that day in UTC, a date as end bound for the last microsecond of that
    day in UTC, and an instant for itself; an absent bound leaves its side
    open. *)
Theorem range_filter_interval (P : platform) (fr : FilterRange) (df : DataFrame) :
  comparable P (range_start fr) -> comparable P (range_end fr) ->
  exists out,
    range_filter_run P fr df = Ok out /\
    forall r, In r out <->
              In r df /\
              (forall v, range_start fr = Some v -> start_floor P v <= start_timestamp r) /\
              (forall v, range_end fr = Some v -> start_timestamp r <= end_ceiling P v).
Proof.
  intros Cs Ce. exists (range_filter P fr df).
  split; [exact (range_filter_run_ok P fr df Cs Ce)|].
  intros r. apply range_filter_floor_ceiling.
Qed.

Lemma range_filter_interval_witness :
  exists out,
    range_filter_run east2
      (mkrange (Some (Instant (mkdatetime (mkdate 2024 1 2) 1 0 0 0 (Some tzlocal) 0)))
               (Some (Day (mkdate 2024 1 1)))) [sample_row] = Ok out /\
    forall r, In r out <->
              In r [sample_row] /\
              (forall v, Some (Instant (mkdatetime (mkdate 2024 1 2) 1 0 0 0 (Some tzlocal) 0))
                         = Some v -> start_floor east2 v <= start_timestamp r) /\
              (forall v, Some (Day (mkdate 2024 1 1)) = Some v ->
                         start_timestamp r <= end_ceiling east2 v).
Proof.
  apply (range_filter_interval east2
           (mkrange (Some (Instant (mkdatetime (mkdate 2024 1 2) 1 0 0 0 (Some tzlocal) 0)))
                    (Some (Day (mkdate 2024 1 1)))) [sample_row]).
  - vm_compute. split; [discriminate | reflexivity].
  - exact I.
Defined.

(** A bound that polars cannot make a literal of ends the filters with
    [OverflowError], whatever the rows are. *)
Lemma range_filter_run_overflow (P : platform) (fr : FilterRange) (df : DataFrame) :
  ~ comparable P (range_start fr) ->
  range_filter_run P fr df = Raise OverflowError.
Proof.
  intros N. unfold range_filter_run, filter_start_run.
  destruct (range_start fr) as [sv|]; [|exfalso; apply N; exact I].
  rewrite (proj2 (comparison_literal_raises P (Some sv) OverflowError) (conj eq_refl N)).
  reflexivity.
Qed.

Lemma nothing_in (A : Type) (l : list A) : (forall x, ~ In x l) -> l = [].
Proof.
  destruct l as [|x l]; [reflexivity|]. intros H. exfalso. apply (H x). now left.
Qed.

(** X8. A range whose end lies before its start is no error: with bounds
    that polars can make literals of, the filters keep no row at all. *)
Theorem inverted_range_is_empty (P : platform) (fr : FilterRange) (df : DataFrame)
    (sv ev : boundary) :
  range_start fr = Some sv -> range_end fr = Some ev ->
  comparable P (Some sv) -> comparable P (Some ev) ->
  end_ceiling P ev < start_floor P sv ->
  range_filter_run P fr df = Ok [].
Proof.
  intros S E Cs Ce I.
  rewrite (range_filter_run_ok P fr df) by (rewrite ?S, ?E; assumption).
  f_equal. apply nothing_in. intros r H.
  apply range_filter_In in H. destruct H as (_ & Hs & He).
  specialize (Hs sv S). specialize (He ev E).
  apply start_mask_floor in Hs. apply end_mask_ceiling in He. lia.
Qed.

Lemma inverted_range_is_empty_witness :
  range_filter_run east2
    (mkrange (Some (Day (mkdate 2024 1 3)))
             (Some (Instant (mkdatetime (mkdate 2024 1 1) 0 0 0 0 (Some tzlocal) 0))))
    [sample_row] = Ok [].
Proof.
  apply (inverted_range_is_empty east2 _ _ (Day (mkdate 2024 1 3))
           (Instant (mkdatetime (mkdate 2024 1 1) 0 0 0 0 (Some tzlocal) 0))).
  - reflexivity.
  - reflexivity.
  - exact I.
  - vm_compute. split; [discriminate | reflexivity].
  - vm_compute. reflexivity.
Defined.

Lemma filter_filter_and {A : Type} (p q : A -> bool) (l : list A) :
  filter q (filter p l) = filter (fun x => p x && q x) l.
Proof.
  induction l as [|x l IH]; cbn [filter]; [reflexivity|].
  destruct (p x) eqn:Ep; cbn [filter andb]; [|exact IH].
  destruct (q x); now rewrite IH.
Qed.

Lemma filter_subseq_weaker {A : Type} (p q : A -> bool) (l : list A) :
  (forall x, In x l -> p x = true -> q x = true) ->
  subseq (filter p l) (filter q l).
Proof.
  induction l as [|x l IH]; intros H; cbn [filter]; [apply subseq_nil|].
  assert (IH' : subseq (filter p l) (filter q l)).
  { apply IH. intros y Iy. apply H. now right. }
  destruct (p x) eqn:Ep.
  - rewrite (H x (or_introl eq_refl) Ep). now apply subseq_keep.
  - destruct (q x); [now apply subseq_skip | exact IH'].
Qed.

(** X9. Widening a range never loses a row: with bounds that polars can
    make literals of, an earlier start and a later end keep all that was
    kept before, in the same order. *)
Theorem wider_range_keeps_more (P : platform) (df : DataFrame)
    (sv sv' ev ev' : boundary) :
  comparable P (Some sv) -> comparable P (Some ev) ->
  comparable P (Some sv') -> comparable P (Some ev') ->
  start_floor P sv' <= start_floor P sv ->
  end_ceiling P ev <= end_ceiling P ev' ->
  exists out out',
    range_filter_run P (mkrange (Some sv) (Some ev)) df = Ok out /\
    range_filter_run P (mkrange (Some sv') (Some ev')) df = Ok out' /\
    subseq out out'.
Proof.
  intros C1 C2 C3 C4 S E.
  exists (range_filter P (mkrange (Some sv) (Some ev)) df),
         (range_filter P (mkrange (Some sv') (Some ev')) df).
  split; [now apply range_filter_run_ok|].
  split; [now apply range_filter_run_ok|].
  unfold range_filter. cbn [range_start range_end].
  rewrite !filter_start_mask, !filter_end_mask, !filter_filter_and.
  apply filter_subseq_weaker. intros r _ H.
  apply andb_true_iff in H. destruct H as [Hs He].
  apply start_mask_floor in Hs. apply end_mask_ceiling in He.
  apply andb_true_iff. split.
  - apply start_mask_floor. lia.
  - apply end_mask_ceiling. lia.
Qed.

Lemma wider_range_keeps_more_witness :
  exists out out',
    range_filter_run east2 (mkrange (Some (Day (mkdate 2024 1 2)))
                                    (Some (Day (mkdate 2024 1 2)))) [sample_row] = Ok out /\
    range_filter_run east2 (mkrange (Some (Day (mkdate 2024 1 1)))
                                    (Some (Day (mkdate 2024 1 3)))) [sample_row] = Ok out' /\
    subseq out out'.
Proof.
  apply (wider_range_keeps_more east2 [sample_row]);
    try exact I; vm_compute; discriminate.
Defined.

(** X10. Rows are judged one by one: the filter of two histories put end
    to end is the two filtered histories put end to end. *)
Theorem range_filter_app (P : platform) (fr : FilterRange) (df1 df2 : DataFrame) :
  range_filter P fr (df1 ++ df2) = range_filter P fr df1 ++ range_filter P fr df2.
Proof.
  unfold range_filter.
  destruct (range_start fr) as [sv|], (range_end fr) as [ev|];
    rewrite ?filter_start_mask, ?filter_end_mask, ?filter_app; reflexivity.
Qed.

(** X11. With the same date as start and as end the filter returns the
    rows of that one day, the day being taken in UTC. *)
Theorem same_day_filter (P : platform) (dd : date) (df : DataFrame) (r : HistoryRecord) :
  In r (range_filter P (mkrange (Some (Day dd)) (Some (Day dd))) df) <->
  In r df /\ start_timestamp r / US_PER_DAY = lit_date dd.
Proof.
  rewrite date_bounds_In. split; intros [I H]; split; auto; lia.
Qed.

(** ** Runs of [main] *)





Lemma parse_clock_today (P : platform) (value : string) (h mi s : Z) :
  clock_text (chars value) h mi s ->
  h <= 23 -> mi <= 59 -> s <= 59 ->
  bound_of P (Some value) = Ok (Some (Instant (today_at P h mi s))).
Proof.
  intros T Hh Hm Hs.
  destruct (clock_text_nonneg _ _ _ _ T) as (Ph & Pm & Ps).
  apply clock_fields_iff in T.
  unfold bound_of, truthy. rewrite (clock_not_empty _ _ T).
  rewrite (parse_clock P value h mi s T).
  unfold time_replace, check_time_fields, time_min. cbn [t_microsecond].
  replace ((0 <=? h) && (h <=? 23) && (0 <=? mi) && (mi <=? 59)
           && (0 <=? s) && (s <=? 59) && (0 <=? 0) && (0 <=? 999999)) with true.
  - reflexivity.
  - symmetry. repeat (apply andb_true_iff; split); apply Z.leb_le; lia.
Qed.

(** X14. Two clock times as bounds select the rows of today between these
    two times on the local clock, both ends included. *)
Theorem clock_bounds_select_today (P : platform) (df : DataFrame)
    (start end_ : string) (h1 m1 s1 h2 m2 s2 : Z) :
  clock_text (chars start) h1 m1 s1 -> h1 <= 23 -> m1 <= 59 -> s1 <= 59 ->
  clock_text (chars end_) h2 m2 s2 -> h2 <= 23 -> m2 <= 59 -> s2 <= 59 ->
  exists out,
    filtered P (Ok df) (Some start) (Some end_) = Ok out /\
    subseq out df /\
    forall r, In r out <->
              In r df /\
              lit_datetime P (today_at P h1 m1 s1) <= start_timestamp r
              <= lit_datetime P (today_at P h2 m2 s2).
Proof.
  intros T1 A1 B1 C1 T2 A2 B2 C2.
  pose proof (parse_clock_today P start h1 m1 s1 T1 A1 B1 C1) as S.
  pose proof (parse_clock_today P end_ h2 m2 s2 T2 A2 B2 C2) as E.
  eexists. split; [exact (filtered_range_filter P df _ _ _ _ S E)|]. split.
  - unfold range_filter. cbn [range_start range_end].
    rewrite filter_start_mask, filter_end_mask.
    eapply subseq_trans; apply filter_subseq.
  - intros r. rewrite range_filter_In. cbn [range_start range_end]. split.
    + intros (I & Hs & He). specialize (Hs _ eq_refl). specialize (He _ eq_refl).
      cbn in Hs, He. rewrite Z.leb_le in Hs, He. auto.
    + intros (I & Hs & He). repeat split; auto; intros v Hv; inversion Hv; subst;
        cbn; apply Z.leb_le; assumption.
Qed.

Lemma clock_bounds_select_today_witness :
  exists out,
    filtered east2 (Ok [sample_row]) (Some "09:00") (Some "17:00") = Ok out /\
    subseq out [sample_row] /\
    forall r, In r out <->
              In r [sample_row] /\
              lit_datetime east2 (today_at east2 9 0 0) <= start_timestamp r
              <= lit_datetime east2 (today_at east2 17 0 0).
Proof.
  apply (clock_bounds_select_today east2 [sample_row] "09:00" "17:00" 9 0 0 17 0 0);
    try lia.
  - apply (clock_hm ["0"; "9"] ["0"; "0"])%char; vm_compute; auto.
  - apply (clock_hm ["1"; "7"] ["0"; "0"])%char; vm_compute; auto.
Defined.

(** ** History acquisition *)

(** X15. When the shell ends with a status other than 0 the run ends with
    a [typer.Exit] whose message carries the captured error stream: the
    output of the shell is not read, no bound and no format is looked at,
    nothing is written. *)
Theorem shell_failure_ends_run (P : platform) (W : shell)
    (start end_ : option string) (output_format : string) :
  returncode (nu W) <> 0 ->
  cli P W start end_ output_format
  = mkrun [] (Raise (ExitWith ("Failed to get nushell history: " ++ stderr (nu W)))).
Proof.
  intros N. unfold cli, get_nu_history.
  apply Z.eqb_neq in N. rewrite N. reflexivity.
Qed.

Lemma shell_failure_ends_run_witness :
  cli east2 no_shell (Some "soon") None "xml"
  = mkrun [] (Raise (ExitWith "Failed to get nushell history: nu: command not found")).
Proof.
  apply (shell_failure_ends_run east2 no_shell (Some "soon") None "xml").
  discriminate.
Defined.

Lemma existsb_eqb_In (x : string) (l : list string) :
  existsb (String.eqb x) l = true <-> In x l.
Proof.
  rewrite existsb_exists. split.
  - intros (y & I & E). apply String.eqb_eq in E. now subst.
  - intros I. exists x. split; [exact I | apply String.eqb_refl].
Qed.

(** X16. When the frame has no [start_timestamp] column the program
    writes the three lines of diagnosis, with the columns that it found.
    The [typer.Exit(code=1)] of line 30 is raised inside the [try] block
    and is caught by the handler of line 38, so the run ends with the
    [typer.Exit] that carries the message of that handler, followed by no
    text, and not with the exit code 1 of line 30. *)
Theorem missing_column_exit (P : platform) (W : shell) (raw : RawFrame)
    (start end_ : option string) (output_format : string) :
  returncode (nu W) = 0 ->
  read_csv W (stdout (nu W)) = inl raw ->
  ~ In "start_timestamp" (columns raw) ->
  cli P W start end_ output_format
  = mkrun
      [Echo "Error: 'start_timestamp' column not found in Nushell history.";
       Echo ("Available columns are: " ++ repr_columns W (columns raw));
       Echo "This might happen if the script's environment doesn't load your full Nushell configuration."]
      (Raise (ExitWith "Failed to parse Nushell history CSV: ")).
Proof.
  intros R C N. unfold cli, get_nu_history, read_history.
  rewrite R, C. cbn [Z.eqb negb].
  destruct (existsb (String.eqb "start_timestamp") (columns raw)) eqn:E.
  - apply existsb_eqb_In in E. contradiction.
  - reflexivity.
Qed.

Lemma missing_column_exit_witness :
  cli east2 bare_shell None None "table"
  = mkrun
      [Echo "Error: 'start_timestamp' column not found in Nushell history.";
       Echo "Available columns are: ['command', 'cwd']";
       Echo "This might happen if the script's environment doesn't load your full Nushell configuration."]
      (Raise (ExitWith "Failed to parse Nushell history CSV: ")).
Proof.
  apply (missing_column_exit east2 bare_shell (mkframe ["command"; "cwd"] []) None None "table").
  - reflexivity.
  - reflexivity.
  - cbn. intros [E | [E | []]]; discriminate E.
Defined.

Lemma strptime_rows_Forall2 (W : shell) (rows : list RawRow) (df : DataFrame) :
  strptime_rows W rows = Some df -> Forall2 (acquired_from W) rows df.
Proof.
  revert df. induction rows as [|row rows IH]; intros df; cbn [strptime_rows].
  - intros H. inversion H. constructor.
  - destruct (raw_start_timestamp row) as [text|] eqn:T; [|discriminate].
    destruct (to_timestamp W text) as [ts|] eqn:S; [|discriminate].
    destruct (strptime_rows W rows) as [df'|]; [|discriminate].
    intros H. inversion H; subst. constructor; [|now apply IH].
    unfold acquired_from. cbn. repeat split. exists text. auto.
Qed.

Lemma strptime_rows_strict (W : shell) (rows : list RawRow) (row : RawRow) (text : string) :
  In row rows -> raw_start_timestamp row = Some text -> to_timestamp W text = None ->
  strptime_rows W rows = None.
Proof.
  induction rows as [|x rows IH]; intros I T S; [contradiction|].
  cbn [strptime_rows]. destruct I as [-> | I].
  - rewrite T, S. reflexivity.
  - rewrite (IH I T S).
    destruct (raw_start_timestamp x) as [t|]; [|reflexivity].
    destruct (to_timestamp W t); reflexivity.
Qed.

(** X17. When [get_nu_history] returns a frame, the shell ended with
    status 0, nothing was written, the frame that was read has the
    [start_timestamp] column, and the records are its rows with a
    timestamp, one for one and in their order, each with its command, its
    directory and the instant of its timestamp; the rows without timestamp
    are left out. *)
Theorem acquired_frame (W : shell) (lines : list output) (df : DataFrame) :
  get_nu_history W = (lines, Ok df) ->
  lines = [] /\ returncode (nu W) = 0 /\
  exists raw,
    read_csv W (stdout (nu W)) = inl raw /\
    In "start_timestamp" (columns raw) /\
    Forall2 (acquired_from W) (filter is_not_null (raw_rows raw)) df.
Proof.
  unfold get_nu_history, read_history.
  destruct (Z.eqb_spec (returncode (nu W)) 0) as [R | R]; cbn [negb]; [|discriminate].
  destruct (read_csv W (stdout (nu W))) as [raw|message]; [|discriminate].
  destruct (existsb (String.eqb "start_timestamp") (columns raw)) eqn:E;
    cbn [negb]; [|discriminate].
  destruct (strptime_rows W (filter is_not_null (raw_rows raw))) as [parsed|] eqn:S;
    [|discriminate].
  intros H. inversion H; subst. split; [reflexivity|]. split; [exact R|].
  exists raw. split; [reflexivity|]. split.
  - now apply existsb_eqb_In.
  - now apply strptime_rows_Forall2.
Qed.

Lemma acquired_frame_witness :
  @nil output = [] /\ returncode (nu good_shell) = 0 /\
  exists raw,
    read_csv good_shell (stdout (nu good_shell)) = inl raw /\
    In "start_timestamp" (columns raw) /\
    Forall2 (acquired_from good_shell) (filter is_not_null (raw_rows raw)) [sample_row].
Proof.
  apply (acquired_frame good_shell [] [sample_row]).
  reflexivity.
Defined.

(** X18. The timestamps are parsed in strict mode: one row whose
    timestamp does not match the pattern of line 36 makes the whole
    acquisition fail, whatever the other rows hold. *)
Theorem one_bad_timestamp_fails (W : shell) (raw : RawFrame) (row : RawRow) (text : string) :
  returncode (nu W) = 0 ->
  read_csv W (stdout (nu W)) = inl raw ->
  In "start_timestamp" (columns raw) ->
  In row (raw_rows raw) ->
  raw_start_timestamp row = Some text ->
  to_timestamp W text = None ->
  get_nu_history W
  = ([], Raise (ExitWith ("Failed to parse Nushell history CSV: "
                          ++ strptime_error W
                               (timestamp_texts (filter is_not_null (raw_rows raw)))))).
Proof.
  intros R C I Ir T S. unfold get_nu_history, read_history.
  rewrite R, C. cbn [Z.eqb negb].
  apply existsb_eqb_In in I. rewrite I. cbn [negb].
  rewrite (strptime_rows_strict W (filter is_not_null (raw_rows raw)) row text);
    [reflexivity | | exact T | exact S].
  apply filter_In. split; [exact Ir|]. unfold is_not_null. now rewrite T.
Qed.

Lemma one_bad_timestamp_fails_witness :
  get_nu_history mixed_shell
  = ([], Raise (ExitWith "Failed to parse Nushell history CSV: no match")).
Proof.
  apply (one_bad_timestamp_fails mixed_shell
           (mkframe ["command"; "cwd"; "start_timestamp"]
              [mkraw "ls" "/home" (Some "2024-01-01 23:30:00.000 +00:00");
               mkraw "cd" "/" (Some "yesterday")])
           (mkraw "cd" "/" (Some "yesterday")) "yesterday").
  - reflexivity.
  - reflexivity.
  - cbn. auto.
  - cbn. auto.
  - reflexivity.
  - reflexivity.
Defined.

Lemma prefix_app (s t : string) : String.prefix s (s ++ t) = true.
Proof.
  induction s as [|c s IH]; cbn.
  - now destruct t.
  - destruct (ascii_dec c c) as [_|N]; [exact IH | contradiction].
Qed.

(** X19. The acquisition fails in two ways only.  When [subprocess.run]
    raises, its exception leaves [get_nu_history] as it is and nothing is
    written.  When it has returned, every failure is a [typer.Exit] that
    carries a message, which starts with one of the two headings of lines
    22 and 39: no error of polars and no exit with a number as code gets
    out of the [try] block. *)
Theorem acquisition_failure_kind (l : launch) (r : raised) :
  snd (get_nu_history_run l) = inr r ->
  (exists error, l = NotStarted error /\ r = Library error /\
                 fst (get_nu_history_run l) = []) \/
  (exists W message,
     l = Completed W /\ r = Program (ExitWith message) /\
     (String.prefix "Failed to get nushell history: " message = true \/
      String.prefix "Failed to parse Nushell history CSV: " message = true)).
Proof.
  destruct l as [W|error]; cbn [get_nu_history_run].
  - intros H. right. exists W. revert H. unfold get_nu_history.
    destruct (negb (returncode (nu W) =? 0)).
    + cbn [snd]. intros H.
      exists ("Failed to get nushell history: " ++ stderr (nu W))%string.
      split; [reflexivity|]. split; [congruence|]. left. apply prefix_app.
    + destruct (read_history W (stdout (nu W))) as [lines [df|r']]; cbn [snd];
        intros H; [discriminate H|].
      exists ("Failed to parse Nushell history CSV: " ++ str_raised r')%string.
      split; [reflexivity|]. split; [congruence|]. right. apply prefix_app.
  - cbn [snd fst]. intros H. left. exists error.
    split; [reflexivity|]. split; [congruence | reflexivity].
Qed.

Lemma acquisition_failure_kind_witness :
  (exists error, NotStarted "[Errno 2] No such file or directory: 'nu'" = NotStarted error /\
                 Library "[Errno 2] No such file or directory: 'nu'" = Library error /\
                 fst (get_nu_history_run
                        (NotStarted "[Errno 2] No such file or directory: 'nu'")) = []) \/
  (exists W message,
     NotStarted "[Errno 2] No such file or directory: 'nu'" = Completed W /\
     Library "[Errno 2] No such file or directory: 'nu'" = Program (ExitWith message) /\
     (String.prefix "Failed to get nushell history: " message = true \/
      String.prefix "Failed to parse Nushell history CSV: " message = true)).
Proof.
  apply (acquisition_failure_kind
           (NotStarted "[Errno 2] No such file or directory: 'nu'")
           (Library "[Errno 2] No such file or directory: 'nu'")).
  reflexivity.
Defined.

(** A shell that ends with status 127 is a failure of the second kind. *)
Example acquisition_failure_status :
  get_nu_history_run (Completed no_shell)
  = ([], inr (Program (ExitWith "Failed to get nushell history: nu: command not found"))).
Proof. reflexivity. Qed.

(** ** The table *)

Lemma wall_epoch (z : option tzinfo) :
  wall (mkdatetime (mkdate 1970 1 1) 0 0 0 0 z 0) = EPOCH_ORDINAL * US_PER_DAY.
Proof. reflexivity. Qed.

Lemma to_py_datetime_instant (ts : Z) (dt : datetime) :
  to_py_datetime ts = Ok dt ->
  tz dt = Some (timezone 0) /\ wall dt = EPOCH_ORDINAL * US_PER_DAY + ts /\
  in_range (EPOCH_ORDINAL * US_PER_DAY + ts).
Proof.
  unfold to_py_datetime. intros H. apply add_timedelta_wall in H.
  rewrite wall_epoch in H. destruct H as (R & W & T). auto.
Qed.

Lemma table_row_shown (P : platform) (row : OutputRow) (cells : string * string * string) :
  zone_law P -> table_row P row = Ok cells -> shown_as P row cells.
Proof.
  intros L. unfold table_row.
  destruct (to_py_datetime (start_time row)) as [dt|] eqn:T; [|discriminate].
  cbn [bind].
  destruct (astimezone_local P dt (timezone 0)) as [w|] eqn:A; [|discriminate].
  cbn [bind]. intros H. inversion H; subst; clear H.
  apply to_py_datetime_instant in T. destruct T as (Z' & W & _).
  destruct (astimezone_local_instant P dt w (timezone 0) L Z' A) as [Tw Iw].
  exists w. split; [reflexivity|]. split; [exact Tw|].
  rewrite Iw. unfold lit_datetime. rewrite Z', W. cbn [tz_utcoffset]. lia.
Qed.

(** X20. The table has one line for each row of the frame, in the order
    of the frame, with the command and the directory of the row; the third
    cell is the text of a [datetime] in the local zone that denotes the
    instant of the row (for a local zone whose [fromutc] and [utcoffset]
    agree).  The start time is shown on the local clock, not in UTC. *)
Theorem table_shows_local_time (P : platform) (rows : list OutputRow)
    (cells : list (string * string * string)) :
  zone_law P ->
  table_rows P rows = Ok cells ->
  Forall2 (shown_as P) rows cells.
Proof.
  intros L. revert cells.
  induction rows as [|row rows IH]; intros cells; cbn [table_rows].
  - intros H. inversion H. constructor.
  - destruct (table_row P row) as [c|] eqn:R; [|discriminate]. cbn [bind].
    destruct (table_rows P rows) as [more|]; [|discriminate]. cbn [bind].
    intros H. inversion H; subst. constructor.
    + now apply table_row_shown.
    + now apply IH.
Qed.

Lemma table_shows_local_time_witness :
  Forall2 (shown_as east2) (select [sample_row])
          [("ls", "/home", "2024-01-02 01:30:00+02:00")].
Proof.
  apply (table_shows_local_time east2 (select [sample_row])).
  - apply fixed_zone_law.
  - reflexivity.
Defined.

Lemma table_shows_rows_length (P : platform) (rows : list OutputRow)
    (cells : list (string * string * string)) :
  table_rows P rows = Ok cells -> List.length cells = List.length rows.
Proof.
  revert cells. induction rows as [|row rows IH]; intros cells; cbn [table_rows].
  - intros H. now inversion H.
  - destruct (table_row P row) as [c|]; [|discriminate]. cbn [bind].
    destruct (table_rows P rows) as [more|]; [|discriminate]. cbn [bind].
    intros H. inversion H; subst. cbn. now rewrite (IH more eq_refl).
Qed.

Lemma table_row_fixed_zone (offset : Z) (clock : datetime) (row : OutputRow) :
  (exists cells, table_row (fixed_zone offset clock) row = Ok cells) <->
  showable offset (start_time row).
Proof.
  unfold table_row, showable. split.
  - intros [cells H].
    destruct (to_py_datetime (start_time row)) as [dt|] eqn:T; [|discriminate].
    cbn [bind] in H.
    destruct (astimezone_local (fixed_zone offset clock) dt (timezone 0)) as [w|] eqn:A;
      [|discriminate].
    apply to_py_datetime_instant in T. destruct T as (Z' & W & R).
    split; [exact R|].
    unfold astimezone_local in A. cbn [tz_utcoffset] in A.
    destruct (add_timedelta dt (- 0)) as [utc|] eqn:U; [|discriminate].
    cbn [bind local_fromutc fixed_zone] in A.
    apply add_timedelta_wall in U. destruct U as (_ & Wu & _).
    apply add_timedelta_wall in A. destruct A as (Ra & _ & _).
    change (wall (replace_tzinfo utc tzlocal)) with (wall utc) in Ra.
    rewrite Wu, W in Ra. now replace (EPOCH_ORDINAL * US_PER_DAY + start_time row + - 0 + offset)
      with (EPOCH_ORDINAL * US_PER_DAY + start_time row + offset) in Ra by lia.
  - intros [R1 R2].
    destruct (add_timedelta_ok (mkdatetime (mkdate 1970 1 1) 0 0 0 0 (Some (timezone 0)) 0)
                (start_time row)) as (dt & T & W & Z').
    { rewrite wall_epoch. exact R1. }
    unfold to_py_datetime. rewrite T. cbn [bind].
    destruct (astimezone_fixed_zone_ok offset clock dt (timezone 0)) as (w & A & _).
    + cbn [tz_utcoffset]. rewrite W.
      rewrite wall_epoch.
      now replace (EPOCH_ORDINAL * US_PER_DAY + start_time row - 0)
        with (EPOCH_ORDINAL * US_PER_DAY + start_time row) by lia.
    + cbn [tz_utcoffset]. rewrite W.
      rewrite wall_epoch.
      now replace (EPOCH_ORDINAL * US_PER_DAY + start_time row - 0 + offset)
        with (EPOCH_ORDINAL * US_PER_DAY + start_time row + offset) by lia.
    + rewrite A. cbn [bind]. eexists. reflexivity.
Qed.

(** X21. On a machine whose zone is a fixed offset the table can be
    built exactly when every timestamp of the frame fits a [datetime] on
    the UTC clock and on the local clock (years 1 to 9999); it then has as
    many lines as the frame has rows. *)
Theorem table_built_iff_showable (offset : Z) (clock : datetime) (rows : list OutputRow) :
  (exists cells, table_rows (fixed_zone offset clock) rows = Ok cells /\
                 List.length cells = List.length rows) <->
  Forall (fun row => showable offset (start_time row)) rows.
Proof.
  induction rows as [|row rows IH]; cbn [table_rows].
  - split; [constructor | intros _; exists []; split; reflexivity].
  - split.
    + intros (cells & H & _).
      destruct (table_row (fixed_zone offset clock) row) as [c|] eqn:R; [|discriminate].
      cbn [bind] in H.
      destruct (table_rows (fixed_zone offset clock) rows) as [more|] eqn:M; [|discriminate].
      constructor.
      * apply (proj1 (table_row_fixed_zone offset clock row)). now exists c.
      * apply IH. exists more. split; [reflexivity|].
        pose proof (table_shows_rows_length (fixed_zone offset clock) rows more M). assumption.
    + intros F. inversion F as [|x xs Hx Hxs]; subst.
      apply (proj2 (table_row_fixed_zone offset clock row)) in Hx. destruct Hx as [c Hc].
      apply IH in Hxs. destruct Hxs as (more & Hm & Lm).
      rewrite Hc, Hm. cbn [bind]. exists (c :: more). split; [reflexivity|].
      cbn. now rewrite Lm.
Qed.

(** ** The text of the table against the parser *)

Lemma clock_text_length (l : list ascii) (h mi s : Z) :
  clock_text l h mi s -> (List.length l <= 8)%nat.
Proof.
  intros T. destruct T; rewrite ?length_app; cbn [List.length];
    rewrite ?length_app; cbn [List.length]; lia.
Qed.

Lemma field_text_length (blank : bool) (l : list ascii) :
  field_text blank l -> (List.length l <= 2)%nat.
Proof. intros F. destruct F; cbn; lia. Qed.

Lemma date_text_length (l : list ascii) (y m dd : Z) :
  date_text l y m dd -> (List.length l <= 10)%nat.
Proof.
  intros T. destruct T as [Y M D LY DY FM FD C].
  apply field_text_length in FM. apply field_text_length in FD.
  rewrite length_app. cbn [List.length]. rewrite length_app. cbn [List.length]. lia.
Qed.

Lemma datetime_chars_length (P : platform) (dt : datetime) :
  (19 <= List.length (datetime_chars P dt))%nat.
Proof.
  unfold datetime_chars, date_chars, format_time.
  repeat (rewrite ?length_app; cbn [List.length]).
  rewrite !pad_length. lia.
Qed.

Lemma pad_without_T (w : nat) (n : Z) : existsb (is_char "T") (pad w n) = false.
Proof. apply digits_without; [reflexivity | apply pad_digits]. Qed.

Lemma format_offset_without_T (off : Z) :
  existsb (is_char "T") (format_offset off) = false.
Proof.
  unfold format_offset. cbv zeta.
  destruct (off <? 0); destruct (_ mod (60 * US_PER_SECOND) =? 0);
    try destruct (_ mod US_PER_SECOND =? 0);
    cbn [existsb]; repeat (rewrite ?existsb_app; cbn [existsb]);
    rewrite ?pad_without_T; reflexivity.
Qed.

Lemma datetime_chars_without_T (P : platform) (dt : datetime) :
  existsb (is_char "T") (datetime_chars P dt) = false.
Proof.
  unfold datetime_chars, date_chars, format_time.
  repeat (rewrite ?existsb_app; cbn [existsb]).
  rewrite !pad_without_T.
  destruct (microsecond dt =? 0); cbn [existsb]; rewrite ?pad_without_T;
    destruct (tz dt) as [z|]; rewrite ?format_offset_without_T; reflexivity.
Qed.

(** X22. What the table shows as start time is never accepted as a
    bound: the text of a [datetime] has a blank where the parser wants a
    [T], so [--start] and [--end] answer it with the parameter error. *)
Theorem shown_time_is_no_bound (P : platform) (dt : datetime) :
  parse_date_or_datetime P (str_datetime P dt)
  = Raise (invalid_format (str_datetime P dt)).
Proof.
  pose proof (datetime_chars_length P dt) as Len.
  pose proof (datetime_chars_without_T P dt) as NoT.
  pose proof (chars_of_list (datetime_chars P dt)) as Ch.
  fold (str_datetime P dt) in Ch.
  generalize dependent (datetime_chars P dt). generalize (str_datetime P dt).
  intros value l Len NoT Ch.
  unfold parse_date_or_datetime.
  assert (NE : String.eqb value EmptyString = false).
  { destruct value; [|reflexivity]. cbn in Ch. subst l. cbn in Len. lia. }
  rewrite NE.
  destruct (fullmatch time_pattern (chars value)) as [g|] eqn:F.
  - exfalso.
    destruct (clock_fields value) as [[[h mi] s]|] eqn:K.
    + apply clock_fields_iff, clock_text_length in K. rewrite Ch in K. lia.
    + unfold clock_fields in K. rewrite F in K. discriminate.
  - unfold contains. rewrite Ch, NoT. cbn [negb].
    destruct (strptime_Ymd value) as [d0|e] eqn:S.
    + exfalso. apply strptime_text in S. destruct S as (y & m & dd & T & _).
      apply date_text_length in T. rewrite Ch in T. lia.
    + apply strptime_raises in S. subst e. reflexivity.
Qed.

(** ** ISO bounds and their offsets *)

Lemma parse_iso_aware (P : platform) (value : string) (dt r : datetime) (z : tzinfo) :
  contains "T" value = true ->
  fromisoformat P value = Ok dt -> tz dt = Some z ->
  parse_date_or_datetime P value = Ok (Some (Instant r)) ->
  astimezone_local P dt z = Ok r.
Proof.
  intros C F Z' H. rewrite (parse_iso P value C), F in H. cbn [bind] in H.
  rewrite Z' in H.
  destruct (astimezone_local P dt z) as [w|[]]; cbn in H; inversion H. reflexivity.
Qed.

(** X23. Only the instant of an ISO bound counts, not the offset it is
    written with: two date-times with offset that denote the same instant
    give bounds that filter every frame alike, as start and as end. *)
Theorem offset_notation_is_irrelevant (P : platform) (v1 v2 : string)
    (dt1 dt2 r1 r2 : datetime) (z1 z2 : tzinfo) (df : DataFrame) :
  zone_law P ->
  contains "T" v1 = true -> fromisoformat P v1 = Ok dt1 -> tz dt1 = Some z1 ->
  contains "T" v2 = true -> fromisoformat P v2 = Ok dt2 -> tz dt2 = Some z2 ->
  lit_datetime P dt1 = lit_datetime P dt2 ->
  parse_date_or_datetime P v1 = Ok (Some (Instant r1)) ->
  parse_date_or_datetime P v2 = Ok (Some (Instant r2)) ->
  filter_start P (Some (Instant r1)) df = filter_start P (Some (Instant r2)) df /\
  filter_end P (Some (Instant r1)) df = filter_end P (Some (Instant r2)) df.
Proof.
  intros L C1 F1 Z1 C2 F2 Z2 E P1 P2.
  pose proof (parse_iso_aware P v1 dt1 r1 z1 C1 F1 Z1 P1) as A1.
  pose proof (parse_iso_aware P v2 dt2 r2 z2 C2 F2 Z2 P2) as A2.
  destruct (astimezone_local_instant P dt1 r1 z1 L Z1 A1) as [_ I1].
  destruct (astimezone_local_instant P dt2 r2 z2 L Z2 A2) as [_ I2].
  cbn [filter_start filter_end]. rewrite I1, I2, E. split; reflexivity.
Qed.

Lemma offset_notation_is_irrelevant_witness :
  filter_start east2
    (Some (Instant (mkdatetime (mkdate 2024 1 2) 1 30 0 0 (Some tzlocal) 0))) [sample_row]
  = filter_start east2
    (Some (Instant (mkdatetime (mkdate 2024 1 2) 1 30 0 0 (Some tzlocal) 0))) [sample_row]
  /\
  filter_end east2
    (Some (Instant (mkdatetime (mkdate 2024 1 2) 1 30 0 0 (Some tzlocal) 0))) [sample_row]
  = filter_end east2
    (Some (Instant (mkdatetime (mkdate 2024 1 2) 1 30 0 0 (Some tzlocal) 0))) [sample_row].
Proof.
  apply (offset_notation_is_irrelevant east2
           "2024-01-01T23:30:00+00:00" "2024-01-01T20:30:00-03:00"
           (mkdatetime (mkdate 2024 1 1) 23 30 0 0 (Some (timezone 0)) 0)
           (mkdatetime (mkdate 2024 1 1) 20 30 0 0 (Some (timezone (- (3 * HOUR)))) 0)
           _ _ (timezone 0) (timezone (- (3 * HOUR))) [sample_row]);
    try reflexivity.
  apply fixed_zone_law.
Defined.
